(** * Verification of the GitHub and web-search tool servers

    A shallow embedding of [src/github3.py] and [src/web_search.py].

    - [Py] models the fragment of Python the two files rely on: exceptions,
      dynamically typed JSON values with the operators applied to them
      ([in], [[]], [.get], truthiness, iteration, [str()]), the [str] methods
      used ([split], [strip], [startswith], [join]) and a small monad of
      programs that may raise or perform one HTTP request.
    - [Github3] embeds [github3.py], [WebSearch] embeds [web_search.py].

    Third-party library calls (base64/UTF-8 decoding, [urllib.parse],
    [BeautifulSoup], [raise_for_status]) are the fields of the class
    [Py.PyLib]; every theorem holds for every implementation of them.
    [Py.Sample.lib] is one implementation, used to run examples. *)

From Stdlib Require Import String Ascii List ZArith Lia Bool DecimalString.
Import ListNotations.
Open Scope string_scope.

Module Py.

(** ** Exceptions

    [exn] stands for instances of Python's [Exception]: [exn_class] is the
    class name and [exn_str] is what [str(e)] returns.  Asynchronous signals
    that derive from [BaseException] only (keyboard interrupt, interpreter
    exit, task cancellation) are outside the model. *)
Record exn : Type := mk_exn { exn_class : string; exn_str : string }.

Definition KeyError (repr_of_key : string) : exn := mk_exn "KeyError" repr_of_key.
Definition TypeError (msg : string) : exn := mk_exn "TypeError" msg.
Definition AttributeError (msg : string) : exn := mk_exn "AttributeError" msg.
Definition IndexError (msg : string) : exn := mk_exn "IndexError" msg.
Definition ValueError (msg : string) : exn := mk_exn "ValueError" msg.

(** A computation without I/O: a value, or a raised exception. *)
Inductive exc (A : Type) : Type :=
| Ok (a : A)
| Err (e : exn).
Arguments Ok {A} a.
Arguments Err {A} e.

Definition exc_bind {A B} (m : exc A) (k : A -> exc B) : exc B :=
  match m with
  | Ok a => k a
  | Err e => Err e
  end.

(** [try: m except: h] (every modelled exception is caught). *)
Definition exc_try {A} (m : exc A) (h : exn -> exc A) : exc A :=
  match m with
  | Ok a => Ok a
  | Err e => h e
  end.

(** ** Strings *)

Definition string_of_Z (z : Z) : string := NilZero.string_of_int (Z.to_int z).

Definition nonempty (s : string) : bool :=
  match s with
  | EmptyString => false
  | String _ _ => true
  end.

(** [sep.join(parts)] *)
Fixpoint join (sep : string) (parts : list string) : string :=
  match parts with
  | [] => ""
  | [p] => p
  | p :: ps => p ++ sep ++ join sep ps
  end.

(** [s.split(sep)] for a one-character separator: always at least one part,
    empty parts are kept. *)
Fixpoint split (sep : ascii) (s : string) : list string :=
  match s with
  | EmptyString => [EmptyString]
  | String c s' =>
      if Ascii.eqb c sep then EmptyString :: split sep s'
      else match split sep s' with
           | [] => [String c EmptyString]
           | p :: ps => String c p :: ps
           end
  end.

(** [s.count(c)] for one character. *)
Fixpoint count_char (c : ascii) (s : string) : nat :=
  match s with
  | EmptyString => 0
  | String d s' => (if Ascii.eqb d c then 1 else 0) + count_char c s'
  end.

(** [s.startswith(p)] *)
Definition startswith (s p : string) : bool := String.prefix p s.

(** [p in s] on two strings: substring test. *)
Definition is_substring (p s : string) : bool :=
  match String.index 0 p s with
  | Some _ => true
  | None => false
  end.

(** [str.isspace] on one character, for code points below 256. *)
Definition is_space (c : ascii) : bool :=
  let n := N_of_ascii c in
  ((9 <=? n) && (n <=? 13) || (28 <=? n) && (n <=? 32)
   || (n =? 133) || (n =? 160))%N.

Fixpoint lstrip (s : string) : string :=
  match s with
  | EmptyString => EmptyString
  | String c s' => if is_space c then lstrip s' else s
  end.

Fixpoint rstrip (s : string) : string :=
  match s with
  | EmptyString => EmptyString
  | String c s' =>
      match rstrip s' with
      | EmptyString => if is_space c then EmptyString else String c EmptyString
      | r => String c r
      end
  end.

(** [s.strip()] *)
Definition strip (s : string) : string := rstrip (lstrip s).

Fixpoint has_char (c : ascii) (s : string) : bool :=
  match s with
  | EmptyString => false
  | String d s' => Ascii.eqb c d || has_char c s'
  end.

Definition hex_digit (n : N) : ascii :=
  match String.get (N.to_nat n) "0123456789abcdef" with
  | Some c => c
  | None => "0"%char
  end.

(** [str.isprintable] on one character, for code points below 256. *)
Definition is_printable (c : ascii) : bool :=
  let n := N_of_ascii c in
  ((32 <=? n) && (n <=? 126) || (161 <=? n) && negb (n =? 173))%N.

Definition repr_char (quote c : ascii) : string :=
  if Ascii.eqb c "\"%char then "\\"
  else if Ascii.eqb c quote then String "\"%char (String quote EmptyString)
  else if Ascii.eqb c "009"%char then "\t"
  else if Ascii.eqb c "010"%char then "\n"
  else if Ascii.eqb c "013"%char then "\r"
  else if is_printable c then String c EmptyString
  else let n := N_of_ascii c in
       String "\"%char (String "x"%char
         (String (hex_digit (n / 16)) (String (hex_digit (n mod 16)) EmptyString))).

Fixpoint repr_chars (quote : ascii) (s : string) : string :=
  match s with
  | EmptyString => EmptyString
  | String c s' => repr_char quote c ++ repr_chars quote s'
  end.

(** [repr(s)] of a [str]: single quotes unless the text has a single quote
    and no double quote. *)
Definition repr_str (s : string) : string :=
  let quote := if has_char "'"%char s && negb (has_char "034"%char s)
               then "034"%char else "'"%char in
  String quote (repr_chars quote s ++ String quote EmptyString).

(** ** JSON values as Python objects

    What [response.json()] returns: [None], [bool], [int], [str], [list] and
    [dict] (an association list in insertion order; a key is looked up at its
    first occurrence).  JSON numbers are modelled as integers. *)
#[local] Set Warnings "-register-all".
Inductive json : Type :=
| JNull
| JBool (b : bool)
| JInt (z : Z)
| JStr (s : string)
| JList (l : list json)
| JDict (d : list (string * json)).

Definition type_name (v : json) : string :=
  match v with
  | JNull => "NoneType"
  | JBool _ => "bool"
  | JInt _ => "int"
  | JStr _ => "str"
  | JList _ => "list"
  | JDict _ => "dict"
  end.

Fixpoint lookup {V : Type} (key : string) (d : list (string * V)) : option V :=
  match d with
  | [] => None
  | (k, v) :: d' => if String.eqb k key then Some v else lookup key d'
  end.

Definition has_key {V : Type} (key : string) (d : list (string * V)) : bool :=
  match lookup key d with
  | Some _ => true
  | None => false
  end.

(** [repr(v)] *)
Fixpoint py_repr (v : json) : string :=
  match v with
  | JNull => "None"
  | JBool b => if b then "True" else "False"
  | JInt z => string_of_Z z
  | JStr s => repr_str s
  | JList l => "[" ++ join ", " (map py_repr l) ++ "]"
  | JDict d =>
      "{" ++ join ", " (map (fun kv => match kv with
                                       | (k, x) => repr_str k ++ ": " ++ py_repr x
                                       end) d) ++ "}"
  end.

(** [str(v)], which is also how an f-string renders [{v}]. *)
Definition py_str (v : json) : string :=
  match v with
  | JStr s => s
  | _ => py_repr v
  end.

(** [v == s] for a [str] literal [s]. *)
Definition eq_str (v : json) (s : string) : bool :=
  match v with
  | JStr t => String.eqb t s
  | _ => false
  end.

(** [bool(v)] *)
Definition truthy (v : json) : bool :=
  match v with
  | JNull => false
  | JBool b => b
  | JInt z => negb (Z.eqb z 0)
  | JStr s => nonempty s
  | JList l => match l with [] => false | _ :: _ => true end
  | JDict d => match d with [] => false | _ :: _ => true end
  end.

Definition not_iterable (v : json) : exn :=
  TypeError ("argument of type '" ++ type_name v ++ "' is not iterable").

(** [key in v] *)
Definition contains (key : string) (v : json) : exc bool :=
  match v with
  | JDict d => Ok (has_key key d)
  | JList l => Ok (existsb (fun x => eq_str x key) l)
  | JStr s => Ok (is_substring key s)
  | _ => Err (not_iterable v)
  end.

(** [v[key]] for a [str] key *)
Definition getitem (v : json) (key : string) : exc json :=
  match v with
  | JDict d =>
      match lookup key d with
      | Some x => Ok x
      | None => Err (KeyError (repr_str key))
      end
  | JList _ => Err (TypeError "list indices must be integers or slices, not str")
  | JStr _ => Err (TypeError "string indices must be integers, not 'str'")
  | _ => Err (TypeError ("'" ++ type_name v ++ "' object is not subscriptable"))
  end.

(** [v.get(key, default)] *)
Definition get (v : json) (key : string) (default : json) : exc json :=
  match v with
  | JDict d =>
      match lookup key d with
      | Some x => Ok x
      | None => Ok default
      end
  | _ => Err (AttributeError
                ("'" ++ type_name v ++ "' object has no attribute 'get'"))
  end.

Fixpoint chars (s : string) : list json :=
  match s with
  | EmptyString => []
  | String c s' => JStr (String c EmptyString) :: chars s'
  end.

(** The items a [for] loop over [v] visits. *)
Definition iterate (v : json) : exc (list json) :=
  match v with
  | JList l => Ok l
  | JDict d => Ok (map (fun kv => JStr (fst kv)) d)
  | JStr s => Ok (chars s)
  | _ => Err (TypeError ("'" ++ type_name v ++ "' object is not iterable"))
  end.

(** ** HTTP and programs

    A request as the two client libraries receive it, and the parts of a
    response the code reads: [body_json] is the outcome of [response.json()]. *)
Record request : Type := mk_request {
  rq_method : string;
  rq_url : string;
  rq_params : list (string * string);
  rq_headers : list (string * string);
  rq_data : list (string * string);
  rq_timeout : option Z
}.

Record response : Type := mk_response {
  status_code : Z;
  text : string;
  body_json : exc json
}.

(** A program: it returns, raises, or sends a request and continues with what
    the network gives back (a response, or an exception of the client). *)
Inductive io (A : Type) : Type :=
| Ret (a : A)
| Raise (e : exn)
| Http (rq : request) (k : exc response -> io A).
Arguments Ret {A} a.
Arguments Raise {A} e.
Arguments Http {A} rq k.

Fixpoint bind {A B} (m : io A) (f : A -> io B) : io B :=
  match m with
  | Ret a => f a
  | Raise e => Raise e
  | Http rq k => Http rq (fun o => bind (k o) f)
  end.

(** [try: m except Exception as e: h e] *)
Fixpoint try_except {A} (m : io A) (h : exn -> io A) : io A :=
  match m with
  | Ret a => Ret a
  | Raise e => h e
  | Http rq k => Http rq (fun o => try_except (k o) h)
  end.

Definition lift {A} (m : exc A) : io A :=
  match m with
  | Ok a => Ret a
  | Err e => Raise e
  end.

(** One call of the HTTP client. *)
Definition send (rq : request) : io response := Http rq lift.

Notation "x <- m ;; k" := (bind m (fun x => k))
  (at level 61, m at next level, right associativity).
Notation "x <-? m ;; k" := (exc_bind m (fun x => k))
  (at level 61, m at next level, right associativity).

(** The network: what each request is answered with. *)
Definition world : Type := request -> exc response.

(** Running a program against a network: the requests sent, in order, and
    the outcome. *)
Fixpoint run {A} (w : world) (p : io A) : list request * exc A :=
  match p with
  | Ret a => ([], Ok a)
  | Raise e => ([], Err e)
  | Http rq k => let (sent, res) := run w (k (w rq)) in (rq :: sent, res)
  end.

(** A program without I/O is the lifting of a computation. *)
Definition pure {A} (p : io A) : Prop := exists m, p = lift m.

(** ** Parsed HTML

    What the extractor reads of an [<a>] element ([get_text()] and
    [get('href')], which is [None] without the attribute) and of a result
    block ([find] returns [None] when no element matches). *)
Record tag : Type := mk_tag {
  get_text : string;
  href : option string
}.

Record result_div : Type := mk_div {
  find_result__a : option tag;
  find_result__snippet : option tag
}.

(** ** Third-party library calls *)
Class PyLib : Type := {
  (** [base64.b64decode(s).decode("utf-8")] on a [str] *)
  b64decode_utf8 : string -> exc string;
  (** [urllib.parse.urlparse(link).query] *)
  urlparse_query : string -> exc string;
  (** [urllib.parse.parse_qs(query)] *)
  parse_qs : string -> exc (list (string * list string));
  (** [response.raise_for_status()]: the exception raised, if any *)
  raise_for_status : response -> option exn;
  (** [BeautifulSoup(text, 'html.parser').find_all('div', class_='result')] *)
  find_result_divs : string -> list result_div
}.

(** ** A sample library

    One implementation of [PyLib], to run the programs on examples.  It
    follows CPython on the inputs the examples use: base64 text whose bytes
    are ASCII, links made of ASCII characters, percent escapes below [%80];
    the texts of its exceptions are shortened.  The HTML parser is replaced
    by the parsed page itself. *)
Module Sample.

Definition b64_value (c : ascii) : option N :=
  let n := N_of_ascii c in
  if ((65 <=? n) && (n <=? 90))%N then Some (n - 65)%N
  else if ((97 <=? n) && (n <=? 122))%N then Some (n - 71)%N
  else if ((48 <=? n) && (n <=? 57))%N then Some (n + 4)%N
  else if (n =? 43)%N then Some 62%N
  else if (n =? 47)%N then Some 63%N
  else None.

(** The decoding loop of [binascii.a2b_base64] (not strict): characters
    outside the alphabet are skipped, a complete pad sequence ends the input. *)
Fixpoint a2b_base64 (s : string) (quad_pos leftchar pads : N) (out : list N)
  : exc (list N) :=
  match s with
  | EmptyString =>
      if (quad_pos =? 0)%N then Ok out
      else Err (mk_exn "binascii.Error" "Incorrect padding")
  | String c s' =>
      if Ascii.eqb c "="%char then
        if ((2 <=? quad_pos) && (4 <=? quad_pos + (pads + 1)))%N then Ok out
        else a2b_base64 s' quad_pos leftchar
               (if (2 <=? quad_pos)%N then pads + 1 else pads)%N out
      else
        match b64_value c with
        | None => a2b_base64 s' quad_pos leftchar pads out
        | Some v =>
            if (quad_pos =? 0)%N then a2b_base64 s' 1 v 0 out
            else if (quad_pos =? 1)%N then
              a2b_base64 s' 2 (v mod 16) 0 (out ++ [(leftchar * 4 + v / 16)%N])%list
            else if (quad_pos =? 2)%N then
              a2b_base64 s' 3 (v mod 4) 0 (out ++ [(leftchar * 16 + v / 4)%N])%list
            else a2b_base64 s' 0 0 0 (out ++ [(leftchar * 64 + v)%N])%list
        end
  end.

Fixpoint ascii_text (bytes : list N) : exc string :=
  match bytes with
  | [] => Ok EmptyString
  | b :: bs =>
      if (b <? 128)%N then
        t <-? ascii_text bs ;; Ok (String (ascii_of_N b) t)
      else Err (mk_exn "UnicodeDecodeError" "'utf-8' codec can't decode byte")
  end.

Definition b64decode_utf8 (s : string) : exc string :=
  bytes <-? a2b_base64 s 0 0 0 [] ;; ascii_text bytes.

(** Text up to the first occurrence of [c], and the text after it if any. *)
Fixpoint cut (c : ascii) (s : string) : string * option string :=
  match s with
  | EmptyString => (EmptyString, None)
  | String d s' =>
      if Ascii.eqb c d then (EmptyString, Some s')
      else let (a, b) := cut c s' in (String d a, b)
  end.

Fixpoint netloc_of (s : string) : string :=
  match s with
  | EmptyString => EmptyString
  | String d s' =>
      if Ascii.eqb d "/"%char || Ascii.eqb d "?"%char || Ascii.eqb d "#"%char
      then EmptyString else String d (netloc_of s')
  end.

(** [urlparse(link).query] for a link without scheme: a network location
    with one unmatched square bracket is refused, then the fragment and the
    query are split off. *)
Definition urlparse_query (link : string) : exc string :=
  let netloc := if startswith link "//"
                then netloc_of (String.substring 2 (String.length link) link)
                else EmptyString in
  if xorb (has_char "["%char netloc) (has_char "]"%char netloc)
  then Err (ValueError "Invalid IPv6 URL")
  else match snd (cut "?"%char (fst (cut "#"%char link))) with
       | Some q => Ok q
       | None => Ok EmptyString
       end.

Definition hex_value (c : ascii) : option N :=
  let n := N_of_ascii c in
  if ((48 <=? n) && (n <=? 57))%N then Some (n - 48)%N
  else if ((65 <=? n) && (n <=? 70))%N then Some (n - 55)%N
  else if ((97 <=? n) && (n <=? 102))%N then Some (n - 87)%N
  else None.

(** [unquote(s.replace('+', ' '))] *)
Fixpoint unquote_plus (s : string) : string :=
  match s with
  | String "%" (String h (String l s' as s1) as s2) =>
      match hex_value h, hex_value l with
      | Some a, Some b =>
          if (a <? 8)%N then String (ascii_of_N (a * 16 + b)) (unquote_plus s')
          else String "%"%char (unquote_plus s2)
      | _, _ => String "%"%char (unquote_plus s2)
      end
  | String c s' =>
      String (if Ascii.eqb c "+"%char then " "%char else c) (unquote_plus s')
  | EmptyString => EmptyString
  end.

Fixpoint add_value (name value : string) (d : list (string * list string))
  : list (string * list string) :=
  match d with
  | [] => [(name, [value])]
  | (k, vs) :: d' =>
      if String.eqb k name then (k, (vs ++ [value])%list) :: d'
      else (k, vs) :: add_value name value d'
  end.

(** [parse_qs(query)]: fields separated by [&], blank values dropped. *)
Definition parse_qs (query : string) : exc (list (string * list string)) :=
  Ok (fold_left
        (fun d field =>
           match cut "="%char field with
           | (name, Some value) =>
               if nonempty value
               then add_value (unquote_plus name) (unquote_plus value) d
               else d
           | (_, None) => d
           end)
        (split "&"%char query) []).

Definition raise_for_status (r : response) : option exn :=
  if ((200 <=? status_code r) && (status_code r <=? 299))%Z then None
  else Some (mk_exn "HTTPStatusError"
               ("Error response " ++ string_of_Z (status_code r))).

Definition lib (page : list result_div) : PyLib :=
  {| Py.b64decode_utf8 := b64decode_utf8;
     Py.urlparse_query := urlparse_query;
     Py.parse_qs := parse_qs;
     Py.raise_for_status := raise_for_status;
     Py.find_result_divs := fun _ => page |}.

End Sample.

End Py.

(** * [github3.py] *)
Module Github3.
Import Py.

Definition nl : string := String "010"%char EmptyString.

Definition GITHUB_API_BASE : string := "https://api.github.com".
Definition USER_AGENT : string := "github-mcp-tool/1.0".
Definition GITHUB_TOKEN : string := "".

Definition isinstance_dict (v : json) : bool :=
  match v with JDict _ => true | _ => false end.

Definition isinstance_list (v : json) : bool :=
  match v with JList _ => true | _ => false end.

(** [base64.b64decode(v).decode("utf-8")]: the library accepts a [str]
    (or bytes, which JSON never yields) and raises [TypeError] otherwise. *)
Definition b64decode_decode `{PyLib} (v : json) : exc string :=
  match v with
  | JStr s => b64decode_utf8 s
  | _ => Err (TypeError
                ("argument should be a bytes-like object or ASCII string, not '"
                 ++ type_name v ++ "'"))
  end.

(** The message of the repository-reference check, shared by three tools. *)
Definition format_error (repo : string) : string :=
  "Error: Repository format should be 'owner/repo', got '" ++ repo ++ "'".

(** [owner, repo_name = parts] *)
Definition unpack2 (parts : list string) : exc (string * string) :=
  match parts with
  | [a; b] => Ok (a, b)
  | [] | [_] =>
      Err (ValueError ("not enough values to unpack (expected 2, got "
                       ++ string_of_Z (Z.of_nat (length parts)) ++ ")"))
  | _ => Err (ValueError "too many values to unpack (expected 2)")
  end.

Definition contents_request (repo_owner repo_name path ref : string) : request :=
  mk_request "GET"
    (GITHUB_API_BASE ++ "/repos/" ++ repo_owner ++ "/" ++ repo_name
       ++ "/contents/" ++ path)
    [("ref", ref)]
    [("User-Agent", USER_AGENT);
     ("Accept", "application/vnd.github.v3+json");
     ("Authorization", "token " ++ GITHUB_TOKEN)]
    [] None.

Definition get_github_contents (repo_owner repo_name path ref : string)
  : io json :=
  response <- send (contents_request repo_owner repo_name path ref) ;;
  if negb (status_code response =? 200)%Z then
    Ret (JDict [("error",
                 JStr ("GitHub API error: "
                       ++ string_of_Z (status_code response)
                       ++ " - " ++ text response))])
  else lift (body_json response).

Section Tools.
Context `{PyLib}.

Definition github_get_file (repo file_path branch : string) : io string :=
  let parts := split "/" repo in
  if negb (length parts =? 2)%nat then Ret (format_error repo)
  else
    names <- lift (unpack2 parts) ;;
    let (owner, repo_name) := names : string * string in
    contents <- get_github_contents owner repo_name file_path branch ;;
    has_error <- lift (contains "error" contents) ;;
    if has_error then
      err <- lift (getitem contents "error") ;;
      Ret ("Error: " ++ py_str err)
    else
      typed <- lift (if isinstance_dict contents
                     then contains "type" contents else Ok false) ;;
      if typed then
        ty <- lift (getitem contents "type") ;;
        if negb (eq_str ty "file") then
          Ret ("Error: Path '" ++ file_path ++ "' is not a file")
        else
          has_content <- lift (contains "content" contents) ;;
          base64 <- lift (if has_content
                          then enc <-? getitem contents "encoding" ;;
                               Ok (eq_str enc "base64")
                          else Ok false) ;;
          if base64 then
            content <- lift (getitem contents "content") ;;
            decoded_content <- lift (b64decode_decode content) ;;
            Ret decoded_content
          else Ret "Error: Could not decode file content"
      else Ret "Error: Unexpected API response format".

(** The [for] loop of [github_list_directory]; [formatted_results] is the
    list built so far. *)
Fixpoint format_entries (items : list json) (formatted_results : list string)
  : exc (list string) :=
  match items with
  | [] => Ok formatted_results
  | item :: rest =>
      item_type <-? getitem item "type" ;;
      item_name <-? getitem item "name" ;;
      item_path <-? getitem item "path" ;;
      ty <-? getitem item "type" ;;
      item_size <-? (if eq_str ty "file"
                     then get item "size" (JStr "N/A")
                     else Ok (JStr "N/A")) ;;
      let formatted_item :=
        nl ++ "Type: " ++ py_str item_type ++ nl
           ++ "Name: " ++ py_str item_name ++ nl
           ++ "Path: " ++ py_str item_path ++ nl
           ++ "Size: " ++ py_str item_size ++ " bytes" ++ nl in
      format_entries rest (formatted_results ++ [formatted_item])%list
  end.

Definition separator : string := nl ++ "---" ++ nl.

Definition github_list_directory (repo path branch : string) : io string :=
  let parts := split "/" repo in
  if negb (length parts =? 2)%nat then Ret (format_error repo)
  else
    names <- lift (unpack2 parts) ;;
    let (owner, repo_name) := names : string * string in
    contents <- get_github_contents owner repo_name path branch ;;
    has_error <- lift (contains "error" contents) ;;
    if has_error then
      err <- lift (getitem contents "error") ;;
      Ret ("Error: " ++ py_str err)
    else if negb (isinstance_list contents) then
      Ret ("Error: Path '" ++ path
           ++ "' is not a directory or the API returned unexpected data")
    else
      items <- lift (iterate contents) ;;
      formatted_results <- lift (format_entries items []) ;;
      Ret (join separator formatted_results).

(** The [for] loop of [github_search_code]; [i] is the counter of
    [enumerate(items, 1)]. *)
Fixpoint format_matches (items : list json) (i : Z)
  (formatted_results : list string) : exc (list string) :=
  match items with
  | [] => Ok formatted_results
  | item :: rest =>
      name <-? get item "name" (JStr "Unknown") ;;
      path <-? get item "path" (JStr "Unknown") ;;
      html_url <-? get item "html_url" (JStr "Unknown") ;;
      let formatted_item :=
        nl ++ "Result " ++ string_of_Z i ++ ":" ++ nl
           ++ "Name: " ++ py_str name ++ nl
           ++ "Path: " ++ py_str path ++ nl
           ++ "URL: " ++ py_str html_url ++ nl in
      format_matches rest (i + 1) (formatted_results ++ [formatted_item])%list
  end.

Definition search_request (owner repo_name query branch : string) : request :=
  mk_request "GET"
    (GITHUB_API_BASE ++ "/search/code")
    [("q", query ++ " in:file repo:" ++ owner ++ "/" ++ repo_name
             ++ " ref:" ++ branch)]
    [("User-Agent", USER_AGENT);
     ("Accept", "application/vnd.github.v3+json");
     ("Authorization", "token " ++ GITHUB_TOKEN)]
    [] None.

Definition github_search_code (repo query branch : string) : io string :=
  let parts := split "/" repo in
  if negb (length parts =? 2)%nat then Ret (format_error repo)
  else
    names <- lift (unpack2 parts) ;;
    let (owner, repo_name) := names : string * string in
    response <- send (search_request owner repo_name query branch) ;;
    if negb (status_code response =? 200)%Z then
      Ret ("Error: GitHub API error: " ++ string_of_Z (status_code response)
           ++ " - " ++ text response)
    else
      result <- lift (body_json response) ;;
      items <- lift (get result "items" (JList [])) ;;
      if negb (truthy items) then Ret "No matching files found."
      else
        entries <- lift (iterate items) ;;
        formatted_results <- lift (format_matches entries 1 []) ;;
        Ret (join separator formatted_results).

Definition rate_limit_request : request :=
  mk_request "GET"
    (GITHUB_API_BASE ++ "/rate_limit")
    []
    [("User-Agent", USER_AGENT);
     ("Authorization", "token " ++ GITHUB_TOKEN)]
    [] None.

Definition check_github_connection : io string :=
  try_except
    (response <- send rate_limit_request ;;
     if (status_code response =? 200)%Z then
       rate_limit_info <- lift (body_json response) ;;
       resources <- lift (get rate_limit_info "resources" (JDict [])) ;;
       core <- lift (get resources "core" (JDict [])) ;;
       core_remaining <- lift (get core "remaining" (JInt 0)) ;;
       Ret ("GitHub API connection successful. Remaining rate limit: "
            ++ py_str core_remaining ++ " requests.")
     else
       Ret ("Error connecting to GitHub API: "
            ++ string_of_Z (status_code response) ++ " - " ++ text response))
    (fun e => Ret ("Error: " ++ exn_str e)).

End Tools.

End Github3.

(** * [web_search.py] *)
Module WebSearch.
Import Py.

Definition nl : string := String "010"%char EmptyString.

Definition USER_AGENT : string :=
  "Mozilla/5.0 (Windows NT 10.0; Win64; x64) AppleWebKit/537.36 (KHTML, like Gecko) Chrome/111.0.0.0 Safari/537.36".
Definition DUCKDUCKGO_URL : string := "https://html.duckduckgo.com/html/".

(** A result record, [Dict[str, str]]. *)
Definition record : Type := list (string * string).

Definition search_request (query : string) : request :=
  mk_request "POST" DUCKDUCKGO_URL []
    [("User-Agent", USER_AGENT)]
    [("q", query); ("kl", "us-en")]
    (Some 30%Z).

(** [values[0]] *)
Definition first_item (values : list string) : exc string :=
  match values with
  | v :: _ => Ok v
  | [] => Err (IndexError "list index out of range")
  end.

(** [d[key]] on the result of [parse_qs] *)
Definition qs_getitem (d : list (string * list string)) (key : string)
  : exc (list string) :=
  match lookup key d with
  | Some vs => Ok vs
  | None => Err (KeyError (repr_str key))
  end.

Section Tools.
Context `{PyLib}.

(** Lines 44-54: the rewriting of a redirect link.  [link] is what
    [title_element.get('href')] returned. *)
Definition resolve_link (link : option string) : exc string :=
  match link with
  | None =>
      Err (AttributeError "'NoneType' object has no attribute 'startswith'")
  | Some link =>
      if startswith link "/" then
        exc_try
          (query <-? urlparse_query link ;;
           query_params <-? parse_qs query ;;
           if has_key "uddg" query_params then
             values <-? qs_getitem query_params "uddg" ;;
             first_item values
           else Ok ("https://duckduckgo.com" ++ link))
          (fun _ => Ok ("https://duckduckgo.com" ++ link))
      else Ok link
  end.

(** The [for] loop over the result blocks; [results] is the list built so
    far.  Returning without visiting [rest] is the [break]. *)
Fixpoint scan_results (divs : list result_div) (num_results : Z)
  (results : list record) : exc (list record) :=
  match divs with
  | [] => Ok results
  | result :: rest =>
      match find_result__a result, find_result__snippet result with
      | Some title_element, Some snippet_element =>
          let title := strip (get_text title_element) in
          link <-? resolve_link (href title_element) ;;
          let snippet := strip (get_text snippet_element) in
          let results :=
            (results ++ [[("title", title); ("link", link);
                          ("snippet", snippet)]])%list in
          if (Z.of_nat (length results) >=? num_results)%Z then Ok results
          else scan_results rest num_results results
      | _, _ => scan_results rest num_results results
      end
  end.

Definition search_duckduckgo (query : string) (num_results : Z)
  : io (list record) :=
  try_except
    (response <- send (search_request query) ;;
     _ <- lift (match raise_for_status response with
                | Some e => Err e
                | None => Ok tt
                end) ;;
     lift (scan_results (find_result_divs (text response)) num_results []))
    (fun e => Ret [[("error", exn_str e)]]).

(** [d.get(key, default)] on a record; in [web_search] below,
    [lookup "error" first] is both the test ["error" in results[0]] and the
    read [results[0]['error']]. *)
Definition record_get (d : record) (key default : string) : string :=
  match lookup key d with
  | Some v => v
  | None => default
  end.

Fixpoint format_results (results : list record) (i : Z)
  (formatted_results : list string) : list string :=
  match results with
  | [] => formatted_results
  | result :: rest =>
      let formatted_result :=
        nl ++ "Result " ++ string_of_Z i ++ ":" ++ nl
           ++ "Title: " ++ record_get result "title" "No title" ++ nl
           ++ "URL: " ++ record_get result "link" "No link" ++ nl
           ++ "Snippet: "
           ++ record_get result "snippet" "No description available" ++ nl in
      format_results rest (i + 1) (formatted_results ++ [formatted_result])%list
  end.

Definition web_search (query : string) : io string :=
  results <- search_duckduckgo query 15 ;;
  match results with
  | first :: _ =>
      match lookup "error" first with
      | Some error => Ret ("Error: " ++ error)
      | None => Ret (join (nl ++ "---" ++ nl) (format_results results 1 []))
      end
  | [] => Ret "No search results found."
  end.

End Tools.

End WebSearch.

(** * The vocabulary of the specification *)

(** Terms the spec uses about [github3.py], and sample inputs. *)
Module Github3Spec.
Import Py Github3.

(** The spec's wording of a well-formed repository reference: it splits into
    exactly two slash-separated parts, both non-empty. *)
Definition two_nonempty_parts (repo : string) : bool :=
  match split "/" repo with
  | [owner; repo_name] => nonempty owner && nonempty repo_name
  | _ => false
  end.

(** A network that answers every request with the same response. *)
Definition always (r : response) : world := fun _ => Ok r.

Definition ok_json (v : json) : response := mk_response 200 "" (Ok v).

(** A directory entry as the spec describes it: an object carrying type,
    name and path (size is optional). *)
Definition carries_type_name_path (item : json) : bool :=
  match item with
  | JDict d => has_key "type" d && has_key "name" d && has_key "path" d
  | _ => false
  end.

Definition field (item : json) (key : string) : option json :=
  match item with
  | JDict d => lookup key d
  | _ => None
  end.

Definition shown (v : option json) (missing : string) : string :=
  match v with
  | Some x => py_str x
  | None => missing
  end.

Definition is_file (item : json) : bool :=
  match field item "type" with
  | Some ty => eq_str ty "file"
  | None => false
  end.

(** The size an entry is listed with: its own for a file that has one,
    ["N/A"] otherwise. *)
Definition shown_size (item : json) : string :=
  if is_file item then shown (field item "size") "N/A" else "N/A".

(** The block the spec promises for one directory entry. *)
Definition entry_block (item : json) : string :=
  nl ++ "Type: " ++ shown (field item "type") "" ++ nl
     ++ "Name: " ++ shown (field item "name") "" ++ nl
     ++ "Path: " ++ shown (field item "path") "" ++ nl
     ++ "Size: " ++ shown_size item ++ " bytes" ++ nl.

(** The block of the [i]-th search match: a missing field reads
    ["Unknown"]. *)
Definition match_block (i : Z) (item : json) : string :=
  nl ++ "Result " ++ string_of_Z i ++ ":" ++ nl
     ++ "Name: " ++ shown (field item "name") "Unknown" ++ nl
     ++ "Path: " ++ shown (field item "path") "Unknown" ++ nl
     ++ "URL: " ++ shown (field item "html_url") "Unknown" ++ nl.

Fixpoint match_blocks (i : Z) (items : list json) : list string :=
  match items with
  | [] => []
  | item :: rest => match_block i item :: match_blocks (i + 1) rest
  end.

(** A directory of two files and a folder; the last file has no size. *)
Definition sample_listing : list json :=
  [JDict [("type", JStr "file"); ("name", JStr "a.py");
          ("path", JStr "src/a.py"); ("size", JInt 12)];
   JDict [("type", JStr "dir"); ("name", JStr "lib");
          ("path", JStr "src/lib"); ("size", JInt 0)];
   JDict [("type", JStr "file"); ("name", JStr "b.py");
          ("path", JStr "src/b.py")]].

(** A network that answers the contents request with a listing whose second
    entry has no path, and the search request with one match without fields. *)
Definition sample_world : world :=
  fun rq =>
    if String.eqb (rq_url rq) (GITHUB_API_BASE ++ "/search/code")
    then Ok (ok_json (JDict [("items", JList [JDict []])]))
    else Ok (ok_json (JList [JDict [("type", JStr "dir"); ("name", JStr "a");
                                    ("path", JStr "a")];
                             JDict [("type", JStr "dir"); ("name", JStr "b")]])).

(** A JSON value that is neither text nor a container. *)
Definition is_scalar (v : json) : bool :=
  match v with
  | JNull | JBool _ | JInt _ => true
  | _ => false
  end.

(** The URL the contents API is asked for, from the reference as the caller
    wrote it. *)
Definition contents_url (repo path : string) : string :=
  GITHUB_API_BASE ++ "/repos/" ++ repo ++ "/contents/" ++ path.

(** The text of a successful connectivity check. *)
Definition quota_message (remaining : json) : string :=
  "GitHub API connection successful. Remaining rate limit: "
  ++ py_str remaining ++ " requests.".

(** Sample answers of the network. *)
Definition not_found : response :=
  mk_response 404 "Not Found" (Err (ValueError "not JSON")).

Definition timed_out : exn := mk_exn "ConnectTimeout" "timed out".

Definition sample_directory_entry : list (string * json) :=
  [("type", JStr "dir"); ("name", JStr "src"); ("path", JStr "src")].

End Github3Spec.

(** Terms the spec uses about [web_search.py], and sample inputs. *)
Module WebSearchSpec.
Import Py WebSearch.

Definition origin : string := "https://duckduckgo.com".

(** The record built from a title, a resolved link and a snippet. *)
Definition result_record (title link snippet : string) : record :=
  [("title", title); ("link", link); ("snippet", snippet)].

(** The sentinel record of a failed search. *)
Definition error_record (e : exn) : record := [("error", exn_str e)].

(** What [search_duckduckgo] makes of the outcome of its loop: an exception
    becomes the sentinel record. *)
Definition caught (outcome : exc (list record)) : exc (list record) :=
  match outcome with
  | Ok results => Ok results
  | Err e => Ok [error_record e]
  end.

Definition lacks_title_or_snippet (b : result_div) : bool :=
  match find_result__a b, find_result__snippet b with
  | Some _, Some _ => false
  | _, _ => true
  end.

(** A block with title, link and snippet. *)
Definition block (title link snippet : string) : result_div :=
  mk_div (Some (mk_tag title (Some link))) (Some (mk_tag snippet None)).

(** A network that answers every request with the page [<html>]. *)
Definition page_world : world :=
  fun _ => Ok (mk_response 200 "<html>" (Err (ValueError "not JSON"))).

(** A block that has both the title and the snippet element. *)
Definition complete (b : result_div) : bool := negb (lacks_title_or_snippet b).

(** A block whose title element, if any, has an [href] attribute. *)
Definition title_has_href (b : result_div) : bool :=
  match find_result__a b with
  | Some title_element =>
      match href title_element with
      | Some _ => true
      | None => false
      end
  | None => true
  end.

(** A complete block whose title element has no [href] attribute. *)
Definition href_missing (b : result_div) : bool :=
  complete b && negb (title_has_href b).

(** The exception of calling [startswith] on a missing [href]. *)
Definition no_href_error : exn :=
  AttributeError "'NoneType' object has no attribute 'startswith'".

Section Links.
Context `{PyLib}.

(** The link a record carries for the [href] text [link], as a total
    function: the destination parameter of a redirect, the origin followed by
    the link when there is none or the link cannot be parsed, the link itself
    when it is no redirect. *)
Definition resolved (link : string) : string :=
  if startswith link "/" then
    match urlparse_query link with
    | Ok query =>
        match parse_qs query with
        | Ok params =>
            match lookup "uddg" params with
            | Some (destination :: _) => destination
            | _ => origin ++ link
            end
        | Err _ => origin ++ link
        end
    | Err _ => origin ++ link
    end
  else link.

(** The records of a page, in document order: one for each complete block
    whose title has an [href]. *)
Fixpoint records_of (divs : list result_div) : list record :=
  match divs with
  | [] => []
  | b :: rest =>
      match find_result__a b, find_result__snippet b with
      | Some title_element, Some snippet_element =>
          match href title_element with
          | Some link =>
              result_record (strip (get_text title_element)) (resolved link)
                (strip (get_text snippet_element)) :: records_of rest
          | None => records_of rest
          end
      | _, _ => records_of rest
      end
  end.

End Links.

(** A record with exactly a title, a link and a snippet, the two texts
    without surrounding whitespace. *)
Definition well_formed_record (r : record) : Prop :=
  exists title link snippet,
    r = result_record title link snippet
    /\ strip title = title /\ strip snippet = snippet.

(** The block [web_search] prints for the [i]-th record. *)
Definition result_block (i : Z) (r : record) : string :=
  nl ++ "Result " ++ string_of_Z i ++ ":" ++ nl
     ++ "Title: " ++ record_get r "title" "No title" ++ nl
     ++ "URL: " ++ record_get r "link" "No link" ++ nl
     ++ "Snippet: " ++ record_get r "snippet" "No description available" ++ nl.

Fixpoint result_blocks (i : Z) (results : list record) : list string :=
  match results with
  | [] => []
  | r :: rest => result_block i r :: result_blocks (i + 1) rest
  end.

(** A page of three complete blocks around one without title: a redirect
    link, a direct link and a relative link. *)
Definition sample_page : list result_div :=
  [block " Docs " "/l/?uddg=https%3A%2F%2Fexample.com%2Fdocs&rut=0a1b" "Manual";
   mk_div None (Some (mk_tag "orphan" None));
   block "Blog" "https://blog.example/" " Posts ";
   block "About" "/about" "Who we are"].

(** A complete block whose title has no [href]. *)
Definition unlinked_block : result_div :=
  mk_div (Some (mk_tag "Broken" None)) (Some (mk_tag "No link" None)).

End WebSearchSpec.

(** * Facts about the Python model *)
Module PyFacts.
Import Py.

Lemma run_lift {A} (w : world) (m : exc A) : run w (lift m) = ([], m).
Proof. destruct m; reflexivity. Qed.

Lemma run_send (w : world) (rq : request) : run w (send rq) = ([rq], w rq).
Proof. unfold send; cbn. rewrite run_lift. reflexivity. Qed.

Lemma run_bind {A B} (w : world) (m : io A) (f : A -> io B) :
  run w (bind m f) =
  match run w m with
  | (sent, Ok a) => let (sent', res) := run w (f a) in ((sent ++ sent')%list, res)
  | (sent, Err e) => (sent, Err e)
  end.
Proof.
  induction m as [a | e | rq k IH]; cbn.
  - destruct (run w (f a)); reflexivity.
  - reflexivity.
  - rewrite IH. destruct (run w (k (w rq))) as [sent [a | e]].
    + destruct (run w (f a)); reflexivity.
    + reflexivity.
Qed.

Lemma run_try_except {A} (w : world) (m : io A) (h : exn -> io A) :
  run w (try_except m h) =
  match run w m with
  | (sent, Ok a) => (sent, Ok a)
  | (sent, Err e) => let (sent', res) := run w (h e) in ((sent ++ sent')%list, res)
  end.
Proof.
  induction m as [a | e | rq k IH]; cbn.
  - reflexivity.
  - destruct (run w (h e)); reflexivity.
  - rewrite IH. destruct (run w (k (w rq))) as [sent [a | e]].
    + reflexivity.
    + destruct (run w (h e)); reflexivity.
Qed.

(** [split] never yields an empty list, and cuts once per separator. *)
Lemma split_length (sep : ascii) (s : string) :
  length (split sep s) = S (count_char sep s).
Proof.
  induction s as [| c s IH]; cbn; [reflexivity |].
  destruct (Ascii.eqb c sep); cbn.
  - now rewrite IH.
  - destruct (split sep s); cbn in *; [discriminate | exact IH].
Qed.

Lemma has_key_lookup {V} (key : string) (d : list (string * V)) :
  has_key key d = true <-> exists v, lookup key d = Some v.
Proof.
  unfold has_key. destruct (lookup key d) as [v |]; split.
  - eauto.
  - reflexivity.
  - discriminate.
  - intros [v Hv]; discriminate.
Qed.

End PyFacts.

(** * Properties of [github3.py] *)
Module Github3Proofs.
Import Py PyFacts Github3 Github3Spec.

Section Properties.
Context `{PyLib}.

Lemma run_get_github_contents_ok
  (w : world) (owner repo_name path ref : string) (r : response) :
  w (contents_request owner repo_name path ref) = Ok r ->
  status_code r = 200%Z ->
  run w (get_github_contents owner repo_name path ref)
  = ([contents_request owner repo_name path ref], body_json r).
Proof.
  intros Hw Hstatus. unfold get_github_contents.
  rewrite run_bind, run_send, Hw, Hstatus. cbn.
  rewrite run_lift. reflexivity.
Qed.

Lemma run_get_github_contents_status
  (w : world) (owner repo_name path ref : string) (r : response) :
  w (contents_request owner repo_name path ref) = Ok r ->
  status_code r <> 200%Z ->
  run w (get_github_contents owner repo_name path ref)
  = ([contents_request owner repo_name path ref],
     Ok (JDict [("error",
                 JStr ("GitHub API error: " ++ string_of_Z (status_code r)
                       ++ " - " ++ text r))])).
Proof.
  intros Hw Hstatus. unfold get_github_contents.
  rewrite run_bind, run_send, Hw.
  destruct (Z.eqb_spec (status_code r) 200) as [Heq | _]; [contradiction |].
  reflexivity.
Qed.

(** A status other than 200 reaches the caller of [github_get_file] as a
    message that carries the status and the body. *)
Lemma get_file_reports_status
  (w : world) (repo owner repo_name path branch : string) (r : response) :
  split "/" repo = [owner; repo_name] ->
  w (contents_request owner repo_name path branch) = Ok r ->
  status_code r <> 200%Z ->
  run w (github_get_file repo path branch)
  = ([contents_request owner repo_name path branch],
     Ok ("Error: GitHub API error: " ++ string_of_Z (status_code r)
         ++ " - " ++ text r)).
Proof.
  intros Hsplit Hw Hstatus.
  unfold github_get_file. rewrite Hsplit.
  cbn -[get_github_contents append string_of_Z].
  rewrite run_bind, (run_get_github_contents_status _ _ _ _ _ r Hw Hstatus).
  reflexivity.
Qed.

Ltac py_simpl :=
  cbn -[get_github_contents has_key lookup b64decode_decode append
        format_entries format_matches join string_of_Z repr_str].

(** C5, as amended: contents without an ["error"] key, of type ["file"],
    with encoding ["base64"] and a content field that decodes, make
    [github_get_file] return exactly the decoded text. *)
Theorem get_file_returns_decoded_text
  (w : world) (repo owner repo_name path branch : string) (r : response)
  (d : list (string * json)) (content : json) (decoded : string) :
  split "/" repo = [owner; repo_name] ->
  w (contents_request owner repo_name path branch) = Ok r ->
  status_code r = 200%Z ->
  body_json r = Ok (JDict d) ->
  has_key "error" d = false ->
  lookup "type" d = Some (JStr "file") ->
  lookup "content" d = Some content ->
  lookup "encoding" d = Some (JStr "base64") ->
  b64decode_decode content = Ok decoded ->
  run w (github_get_file repo path branch)
  = ([contents_request owner repo_name path branch], Ok decoded).
Proof.
  intros Hsplit Hw Hstatus Hbody Herror Htype Hcontent Hencoding Hdecode.
  unfold github_get_file. rewrite Hsplit. py_simpl.
  rewrite run_bind, (run_get_github_contents_ok _ _ _ _ _ r Hw Hstatus), Hbody.
  py_simpl. rewrite Herror. py_simpl.
  unfold has_key. rewrite Htype. py_simpl.
  rewrite Hcontent, Hencoding. py_simpl.
  rewrite Hdecode. reflexivity.
Qed.

(** Contents of type ["file"] with a content field and no ["encoding"] key:
    the test of line 59 indexes the missing key. *)
Lemma missing_encoding_raises
  (w : world) (repo owner repo_name path branch : string) (r : response)
  (d : list (string * json)) :
  split "/" repo = [owner; repo_name] ->
  w (contents_request owner repo_name path branch) = Ok r ->
  status_code r = 200%Z ->
  body_json r = Ok (JDict d) ->
  has_key "error" d = false ->
  lookup "type" d = Some (JStr "file") ->
  has_key "content" d = true ->
  has_key "encoding" d = false ->
  run w (github_get_file repo path branch)
  = ([contents_request owner repo_name path branch],
     Err (KeyError "'encoding'")).
Proof.
  intros Hsplit Hw Hstatus Hbody Herror Htype Hcontent Hencoding.
  unfold github_get_file. rewrite Hsplit. py_simpl.
  rewrite run_bind, (run_get_github_contents_ok _ _ _ _ _ r Hw Hstatus), Hbody.
  py_simpl. rewrite Herror. py_simpl.
  rewrite Hcontent. unfold has_key in Hencoding |- *. rewrite Htype. py_simpl.
  destruct (lookup "encoding" d); [discriminate | reflexivity].
Qed.

Lemma format_entries_step
  (item : json) (rest : list json) (formatted : list string) :
  carries_type_name_path item = true ->
  format_entries (item :: rest) formatted
  = format_entries rest (formatted ++ [entry_block item])%list.
Proof.
  intros Hitem. destruct item as [| | | | | d]; try discriminate.
  cbn [carries_type_name_path] in Hitem.
  apply andb_prop in Hitem as [Hitem Hpath].
  apply andb_prop in Hitem as [Htype Hname].
  apply has_key_lookup in Htype as [ty Hty].
  apply has_key_lookup in Hname as [nm Hnm].
  apply has_key_lookup in Hpath as [pth Hpth].
  cbn [format_entries getitem exc_bind].
  rewrite Hty, Hnm, Hpth. cbn [exc_bind].
  assert (Hsize : exists item_size,
    (if eq_str ty "file" then get (JDict d) "size" (JStr "N/A")
     else Ok (JStr "N/A")) = Ok item_size
    /\ py_str item_size = shown_size (JDict d)).
  { unfold shown_size, is_file. cbn [field get]. rewrite Hty.
    destruct (eq_str ty "file"); [| now exists (JStr "N/A")].
    destruct (lookup "size" d) as [size |].
    - now exists size.
    - now exists (JStr "N/A"). }
  destruct Hsize as [item_size [-> Hshown]].
  cbn [exc_bind]. unfold entry_block. cbn [field shown].
  rewrite Hty, Hnm, Hpth, Hshown. reflexivity.
Qed.

Lemma format_entries_blocks (items : list json) (formatted : list string) :
  forallb carries_type_name_path items = true ->
  format_entries items formatted
  = Ok (formatted ++ map entry_block items)%list.
Proof.
  revert formatted.
  induction items as [| item rest IH]; intros formatted Hall.
  - cbn. now rewrite app_nil_r.
  - cbn [forallb] in Hall. apply andb_prop in Hall as [Hitem Hrest].
    rewrite format_entries_step by exact Hitem.
    rewrite IH by exact Hrest.
    rewrite <- app_assoc. reflexivity.
Qed.

(** The first entry without type, name or path stops the loop with the
    [KeyError] of the key it lacks. *)
Lemma format_entries_missing_field
  (items : list json) (formatted : list string) :
  forallb isinstance_dict items = true ->
  existsb (fun item => negb (carries_type_name_path item)) items = true ->
  exists key,
    In key ["type"; "name"; "path"]
    /\ format_entries items formatted = Err (KeyError (repr_str key)).
Proof.
  revert formatted.
  induction items as [| item rest IH]; intros formatted Hdicts Hbad.
  - discriminate.
  - cbn [forallb existsb] in Hdicts, Hbad.
    apply andb_prop in Hdicts as [Hdict Hrest].
    destruct (carries_type_name_path item) eqn:Hitem.
    + rewrite format_entries_step by exact Hitem.
      apply IH; assumption.
    + destruct item as [| | | | | d]; try discriminate.
      cbn [carries_type_name_path] in Hitem.
      unfold has_key in Hitem.
      cbn [format_entries getitem exc_bind].
      destruct (lookup "type" d) as [ty |].
      * destruct (lookup "name" d) as [nm |].
        -- destruct (lookup "path" d) as [pth |]; [discriminate |].
           exists "path". split; [cbn; auto | reflexivity].
        -- exists "name". split; [cbn; auto | reflexivity].
      * exists "type". split; [cbn; auto | reflexivity].
Qed.

Lemma format_matches_blocks
  (items : list json) (i : Z) (formatted : list string) :
  forallb isinstance_dict items = true ->
  format_matches items i formatted
  = Ok (formatted ++ match_blocks i items)%list.
Proof.
  revert i formatted.
  induction items as [| item rest IH]; intros i formatted Hdicts.
  - cbn. now rewrite app_nil_r.
  - cbn [forallb] in Hdicts. apply andb_prop in Hdicts as [Hdict Hrest].
    destruct item as [| | | | | d]; try discriminate.
    cbn [format_matches get match_blocks].
    unfold match_block. cbn [field].
    destruct (lookup "name" d), (lookup "path" d), (lookup "html_url" d);
      cbn [exc_bind shown py_str]; rewrite IH by exact Hrest;
      rewrite <- app_assoc; reflexivity.
Qed.

Lemma no_error_among_entries (items : list json) :
  forallb isinstance_dict items = true ->
  existsb (fun x => eq_str x "error") items = false.
Proof.
  induction items as [| item rest IH]; cbn; [reflexivity |].
  intros Hall. apply andb_prop in Hall as [Hitem Hrest].
  destruct item; try discriminate. cbn. auto.
Qed.

Lemma carries_is_dict (items : list json) :
  forallb carries_type_name_path items = true ->
  forallb isinstance_dict items = true.
Proof.
  induction items as [| item rest IH]; cbn; [reflexivity |].
  intros Hall. apply andb_prop in Hall as [Hitem Hrest].
  destruct item; try discriminate. cbn. auto.
Qed.

(** C6: a directory response (a list of entries carrying type, name and
    path) is rendered as one block per entry, in the order of the list, each
    block showing type, name, path and size, with ["N/A"] as the size of an
    entry that is not a file. *)
Theorem list_directory_one_block_per_entry
  (w : world) (repo owner repo_name path branch : string) (r : response)
  (items : list json) :
  split "/" repo = [owner; repo_name] ->
  w (contents_request owner repo_name path branch) = Ok r ->
  status_code r = 200%Z ->
  body_json r = Ok (JList items) ->
  forallb carries_type_name_path items = true ->
  run w (github_list_directory repo path branch)
  = ([contents_request owner repo_name path branch],
     Ok (join separator (map entry_block items)))
  /\ length (map entry_block items) = length items
  /\ (forall item, In item items ->
        is_file item = false -> shown_size item = "N/A").
Proof.
  intros Hsplit Hw Hstatus Hbody Hitems. split; [| split].
  - unfold github_list_directory. rewrite Hsplit. py_simpl.
    rewrite run_bind, (run_get_github_contents_ok _ _ _ _ _ r Hw Hstatus), Hbody.
    py_simpl.
    rewrite (no_error_among_entries items (carries_is_dict items Hitems)).
    py_simpl. rewrite (format_entries_blocks items [] Hitems). reflexivity.
  - apply length_map.
  - intros item _ Hnot. unfold shown_size. now rewrite Hnot.
Qed.

(** C9, as amended: in the directory listing an entry without type, name or
    path raises [KeyError] out of the operation; in the code search a match
    without name, path or URL does not raise, the field reads ["Unknown"]. *)
Theorem missing_field_raises_in_listing_only
  (w : world) (repo owner repo_name path query branch : string)
  (r r' : response) (items matches : list json)
  (envelope : list (string * json)) :
  split "/" repo = [owner; repo_name] ->
  w (contents_request owner repo_name path branch) = Ok r ->
  status_code r = 200%Z ->
  body_json r = Ok (JList items) ->
  forallb isinstance_dict items = true ->
  existsb (fun item => negb (carries_type_name_path item)) items = true ->
  w (search_request owner repo_name query branch) = Ok r' ->
  status_code r' = 200%Z ->
  body_json r' = Ok (JDict envelope) ->
  lookup "items" envelope = Some (JList matches) ->
  matches <> [] ->
  forallb isinstance_dict matches = true ->
  (exists key,
     In key ["type"; "name"; "path"]
     /\ run w (github_list_directory repo path branch)
        = ([contents_request owner repo_name path branch],
           Err (KeyError (repr_str key))))
  /\ run w (github_search_code repo query branch)
     = ([search_request owner repo_name query branch],
        Ok (join separator (match_blocks 1 matches))).
Proof.
  intros Hsplit Hw Hstatus Hbody Hdicts Hbad Hw' Hstatus' Hbody' Hitems
         Hsome Hdicts'.
  split.
  - destruct (format_entries_missing_field items [] Hdicts Hbad)
      as [key [Hkey Hraise]].
    exists key. split; [exact Hkey |].
    unfold github_list_directory. rewrite Hsplit. py_simpl.
    rewrite run_bind, (run_get_github_contents_ok _ _ _ _ _ r Hw Hstatus), Hbody.
    py_simpl. rewrite (no_error_among_entries items Hdicts). py_simpl.
    rewrite Hraise. reflexivity.
  - unfold github_search_code. rewrite Hsplit. py_simpl.
    rewrite Hw'. py_simpl. rewrite Hstatus', Hbody'. py_simpl.
    rewrite Hitems. py_simpl.
    destruct matches as [| item rest]; [contradiction |]. py_simpl.
    rewrite (format_matches_blocks (item :: rest) 1 [] Hdicts').
    reflexivity.
Qed.

(** C8: [check_github_connection] sends one request and returns a text
    whatever comes back: the exception text when the probe raises, the status
    and body on a status other than 200, the remaining quota on a rate-limit
    answer, and the exception text when the answer cannot be read. *)
Theorem check_connection_always_returns_text (w : world) :
  (exists message,
     run w check_github_connection = ([rate_limit_request], Ok message))
  /\ (forall e,
        w rate_limit_request = Err e ->
        run w check_github_connection
        = ([rate_limit_request], Ok ("Error: " ++ exn_str e)))
  /\ (forall r,
        w rate_limit_request = Ok r ->
        status_code r <> 200%Z ->
        run w check_github_connection
        = ([rate_limit_request],
           Ok ("Error connecting to GitHub API: "
               ++ string_of_Z (status_code r) ++ " - " ++ text r)))
  /\ (forall r info resources core remaining,
        w rate_limit_request = Ok r ->
        status_code r = 200%Z ->
        body_json r = Ok (JDict info) ->
        lookup "resources" info = Some (JDict resources) ->
        lookup "core" resources = Some (JDict core) ->
        lookup "remaining" core = Some remaining ->
        run w check_github_connection
        = ([rate_limit_request],
           Ok ("GitHub API connection successful. Remaining rate limit: "
               ++ py_str remaining ++ " requests.")))
  /\ (forall r e,
        w rate_limit_request = Ok r ->
        status_code r = 200%Z ->
        body_json r = Err e ->
        run w check_github_connection
        = ([rate_limit_request], Ok ("Error: " ++ exn_str e))).
Proof.
  unfold check_github_connection.
  repeat split.
  - py_simpl. destruct (w rate_limit_request) as [r | e]; py_simpl.
    + destruct (status_code r =? 200)%Z; py_simpl; [| eauto].
      destruct (body_json r) as [info | e]; py_simpl; [| eauto].
      destruct (get info "resources" (JDict [])) as [resources | e];
        py_simpl; [| eauto].
      destruct (get resources "core" (JDict [])) as [core | e];
        py_simpl; [| eauto].
      destruct (get core "remaining" (JInt 0)) as [remaining | e];
        py_simpl; eauto.
    + eauto.
  - intros e Hw. py_simpl. rewrite Hw. reflexivity.
  - intros r Hw Hstatus. py_simpl. rewrite Hw. py_simpl.
    destruct (Z.eqb_spec (status_code r) 200) as [Heq | _]; [contradiction |].
    reflexivity.
  - intros r info resources core remaining Hw Hstatus Hbody Hres Hcore Hrem.
    py_simpl. rewrite Hw. py_simpl. rewrite Hstatus, Hbody. py_simpl.
    rewrite Hres. py_simpl. rewrite Hcore. py_simpl. rewrite Hrem.
    reflexivity.
  - intros r e Hw Hstatus Hbody.
    py_simpl. rewrite Hw. py_simpl. rewrite Hstatus, Hbody. reflexivity.
Qed.

(** C4, as amended: a repository reference that does not split into exactly
    two slash-separated parts makes each of the three operations return the
    validation message, and no request is sent. *)
Theorem malformed_reference_sends_nothing
  (w : world) (repo path query branch : string) :
  length (split "/" repo) <> 2 ->
  run w (github_get_file repo path branch) = ([], Ok (format_error repo))
  /\ run w (github_list_directory repo path branch)
     = ([], Ok (format_error repo))
  /\ run w (github_search_code repo query branch)
     = ([], Ok (format_error repo)).
Proof.
  intros Hlen.
  unfold github_get_file, github_list_directory, github_search_code.
  destruct (Nat.eqb_spec (length (split "/" repo)) 2) as [Heq | _].
  - contradiction.
  - cbn. repeat split; reflexivity.
Qed.

End Properties.

(** C4, as stated, fails: ["owner/"] has an empty second part, and each of
    the three operations sends its request. *)
Lemma empty_part_reference_sends_request :
  two_nonempty_parts "owner/" = false
  /\ fst (run (always (ok_json JNull))
            (github_get_file (H := Sample.lib []) "owner/" "README.md" "main"))
     = [contents_request "owner" "" "README.md" "main"]
  /\ fst (run (always (ok_json JNull))
            (github_list_directory "owner/" "src" "main"))
     = [contents_request "owner" "" "src" "main"]
  /\ fst (run (always (ok_json JNull))
            (github_search_code "owner/" "def" "main"))
     = [search_request "owner" "" "def" "main"].
Proof. repeat split; reflexivity. Qed.

Lemma malformed_reference_sends_nothing_witness :
  length (split "/" "owner-repo") <> 2
  /\ run (always (ok_json JNull))
       (github_get_file (H := Sample.lib []) "owner-repo" "README.md" "main")
     = ([], Ok (format_error "owner-repo")).
Proof.
  split.
  - cbn. lia.
  - apply (malformed_reference_sends_nothing (H := Sample.lib [])
             (always (ok_json JNull)) "owner-repo" "README.md" "x" "main").
    cbn. lia.
Defined.

(** C5, as stated, fails: these contents are a dict of type ["file"] with a
    content field that decodes to [hello] and encoding ["base64"], and the
    operation answers with the text of their ["error"] entry. *)
Lemma file_contents_with_error_key_not_decoded :
  let d := [("type", JStr "file"); ("content", JStr "aGVsbG8=");
            ("encoding", JStr "base64"); ("error", JStr "quota")] in
  lookup "type" d = Some (JStr "file")
  /\ lookup "encoding" d = Some (JStr "base64")
  /\ b64decode_decode (H := Sample.lib []) (JStr "aGVsbG8=") = Ok "hello"
  /\ run (always (ok_json (JDict d)))
       (github_get_file (H := Sample.lib []) "owner/repo" "README.md" "main")
     = ([contents_request "owner" "repo" "README.md" "main"],
        Ok "Error: quota").
Proof. repeat split; reflexivity. Qed.

Lemma get_file_returns_decoded_text_witness :
  run (always (ok_json (JDict [("type", JStr "file");
                               ("content", JStr "aGVsbG8=");
                               ("encoding", JStr "base64")])))
    (github_get_file (H := Sample.lib []) "owner/repo" "README.md" "main")
  = ([contents_request "owner" "repo" "README.md" "main"], Ok "hello").
Proof.
  apply (get_file_returns_decoded_text (H := Sample.lib [])
           (always (ok_json (JDict [("type", JStr "file");
                                    ("content", JStr "aGVsbG8=");
                                    ("encoding", JStr "base64")])))
           "owner/repo" "owner" "repo" "README.md" "main"
           (ok_json (JDict [("type", JStr "file");
                            ("content", JStr "aGVsbG8=");
                            ("encoding", JStr "base64")]))
           [("type", JStr "file"); ("content", JStr "aGVsbG8=");
            ("encoding", JStr "base64")]
           (JStr "aGVsbG8=") "hello"); reflexivity.
Defined.

Lemma list_directory_one_block_per_entry_witness :
  run (always (ok_json (JList sample_listing)))
    (github_list_directory "owner/repo" "src" "main")
  = ([contents_request "owner" "repo" "src" "main"],
     Ok (join separator (map entry_block sample_listing))).
Proof.
  apply (list_directory_one_block_per_entry
           (always (ok_json (JList sample_listing)))
           "owner/repo" "owner" "repo" "src" "main"
           (ok_json (JList sample_listing)) sample_listing);
    reflexivity.
Defined.

(** The listing of [sample_listing], written out. *)
Example sample_listing_text :
  join separator (map entry_block sample_listing)
  = nl ++ "Type: file" ++ nl ++ "Name: a.py" ++ nl ++ "Path: src/a.py" ++ nl
       ++ "Size: 12 bytes" ++ nl
       ++ nl ++ "---" ++ nl
       ++ nl ++ "Type: dir" ++ nl ++ "Name: lib" ++ nl ++ "Path: src/lib" ++ nl
       ++ "Size: N/A bytes" ++ nl
       ++ nl ++ "---" ++ nl
       ++ nl ++ "Type: file" ++ nl ++ "Name: b.py" ++ nl ++ "Path: src/b.py"
       ++ nl ++ "Size: N/A bytes" ++ nl.
Proof. reflexivity. Qed.

(** C9, as stated, fails on the code-search path: a match without name, path
    and URL raises nothing, it is listed with ["Unknown"] fields. *)
Lemma search_match_without_fields_is_listed :
  field (JDict []) "name" = None
  /\ field (JDict []) "path" = None
  /\ run (always (ok_json (JDict [("items", JList [JDict []])])))
       (github_search_code "owner/repo" "parse" "main")
     = ([search_request "owner" "repo" "parse" "main"],
        Ok (nl ++ "Result 1:" ++ nl ++ "Name: Unknown" ++ nl
               ++ "Path: Unknown" ++ nl ++ "URL: Unknown" ++ nl)).
Proof. repeat split; reflexivity. Qed.

Lemma missing_field_raises_in_listing_only_witness :
  (exists key,
     In key ["type"; "name"; "path"]
     /\ run sample_world (github_list_directory "owner/repo" "" "main")
        = ([contents_request "owner" "repo" "" "main"],
           Err (KeyError (repr_str key))))
  /\ run sample_world (github_search_code "owner/repo" "parse" "main")
     = ([search_request "owner" "repo" "parse" "main"],
        Ok (join separator (match_blocks 1 [JDict []]))).
Proof.
  apply (missing_field_raises_in_listing_only
           sample_world "owner/repo" "owner" "repo" "" "parse" "main"
           (ok_json (JList [JDict [("type", JStr "dir"); ("name", JStr "a");
                                   ("path", JStr "a")];
                            JDict [("type", JStr "dir"); ("name", JStr "b")]]))
           (ok_json (JDict [("items", JList [JDict []])]))
           [JDict [("type", JStr "dir"); ("name", JStr "a");
                   ("path", JStr "a")];
            JDict [("type", JStr "dir"); ("name", JStr "b")]]
           [JDict []] [("items", JList [JDict []])]);
    try reflexivity.
  discriminate.
Defined.

(** C10: some contents of type ["file"] with a content field and without an
    ["encoding"] key make [github_get_file] raise [KeyError] rather than
    return a message. *)
Theorem get_file_missing_encoding_raises :
  exists d : list (string * json),
    lookup "type" d = Some (JStr "file")
    /\ has_key "content" d = true
    /\ has_key "encoding" d = false
    /\ forall (lib : PyLib) (w : world) (repo owner repo_name path branch : string)
              (r : response),
         split "/" repo = [owner; repo_name] ->
         w (contents_request owner repo_name path branch) = Ok r ->
         status_code r = 200%Z ->
         body_json r = Ok (JDict d) ->
         run w (github_get_file repo path branch)
         = ([contents_request owner repo_name path branch],
            Err (mk_exn "KeyError" "'encoding'")).
Proof.
  exists [("type", JStr "file"); ("content", JStr "aGVsbG8=")].
  repeat split.
  intros lib w repo owner repo_name path branch r Hsplit Hw Hstatus Hbody.
  apply (missing_encoding_raises w repo owner repo_name path branch r
           _ Hsplit Hw Hstatus Hbody); reflexivity.
Qed.

End Github3Proofs.

(** * Properties of [web_search.py] *)
Module WebSearchProofs.
Import Py PyFacts WebSearch WebSearchSpec.

Section Properties.
Context `{PyLib}.

(** On a response that passes the status check, [search_duckduckgo] is the
    loop over the blocks of the page, with exceptions turned into the
    sentinel record. *)
Lemma run_search_duckduckgo_page
  (w : world) (query : string) (num_results : Z) (r : response) :
  w (search_request query) = Ok r ->
  raise_for_status r = None ->
  run w (search_duckduckgo query num_results)
  = ([search_request query],
     caught (scan_results (find_result_divs (text r)) num_results [])).
Proof.
  intros Hw Hstatus. unfold search_duckduckgo.
  rewrite run_try_except, run_bind, run_send, Hw. cbn.
  rewrite Hstatus. cbn.
  destruct (scan_results (find_result_divs (text r)) num_results []);
    reflexivity.
Qed.

(** C1: a link that begins with a slash is rewritten to the first value of
    the [uddg] parameter when the parsed query has one, to the origin followed
    by the link when it has none or when parsing raises; the step always
    yields a link, and that link is the one stored in the record. *)
Theorem redirect_link_resolution (link : string) :
  startswith link "/" = true ->
  (forall query params v vs,
      urlparse_query link = Ok query ->
      parse_qs query = Ok params ->
      lookup "uddg" params = Some (v :: vs) ->
      resolve_link (Some link) = Ok v)
  /\ (forall query params,
        urlparse_query link = Ok query ->
        parse_qs query = Ok params ->
        lookup "uddg" params = None ->
        resolve_link (Some link) = Ok (origin ++ link))
  /\ (forall e,
        urlparse_query link = Err e ->
        resolve_link (Some link) = Ok (origin ++ link))
  /\ (forall query e,
        urlparse_query link = Ok query ->
        parse_qs query = Err e ->
        resolve_link (Some link) = Ok (origin ++ link))
  /\ (exists final,
        resolve_link (Some link) = Ok final
        /\ forall title snippet rest num_results results,
             scan_results
               (mk_div (Some (mk_tag title (Some link))) (Some snippet) :: rest)
               num_results results
             = let results' :=
                 (results ++ [result_record (strip title) final
                                (strip (get_text snippet))])%list in
               if (Z.of_nat (length results') >=? num_results)%Z
               then Ok results'
               else scan_results rest num_results results').
Proof.
  intros Hslash. unfold resolve_link. rewrite Hslash.
  repeat split.
  - intros query params v vs Hquery Hparams Huddg.
    rewrite Hquery. cbn [exc_bind exc_try]. rewrite Hparams.
    cbn [exc_bind exc_try]. unfold has_key, qs_getitem. rewrite Huddg.
    reflexivity.
  - intros query params Hquery Hparams Huddg.
    rewrite Hquery. cbn [exc_bind exc_try]. rewrite Hparams.
    cbn [exc_bind exc_try]. unfold has_key. rewrite Huddg. reflexivity.
  - intros e Hquery. rewrite Hquery. reflexivity.
  - intros query e Hquery Hparams.
    rewrite Hquery. cbn [exc_bind exc_try]. rewrite Hparams. reflexivity.
  - assert (Hfinal : exists final,
      exc_try
        (query <-? urlparse_query link ;;
         query_params <-? parse_qs query ;;
         if has_key "uddg" query_params
         then values <-? qs_getitem query_params "uddg" ;; first_item values
         else Ok ("https://duckduckgo.com" ++ link))
        (fun _ => Ok ("https://duckduckgo.com" ++ link)) = Ok final).
    { destruct (urlparse_query link) as [query | e]; cbn [exc_bind exc_try];
        [| eauto].
      destruct (parse_qs query) as [params | e]; cbn [exc_bind exc_try];
        [| eauto].
      unfold has_key, qs_getitem.
      destruct (lookup "uddg" params) as [[| v vs] |];
        cbn [exc_bind exc_try first_item]; eauto. }
    destruct Hfinal as [final Hfinal]. exists final. split; [exact Hfinal |].
    intros title snippet rest num_results results.
    cbn [scan_results find_result__a find_result__snippet href get_text].
    unfold resolve_link. rewrite Hslash, Hfinal. reflexivity.
Qed.

(** A block without title or without snippet leaves the loop state as it
    was. *)
Lemma scan_results_skip
  (b : result_div) (rest : list result_div) (num_results : Z)
  (results : list record) :
  lacks_title_or_snippet b = true ->
  scan_results (b :: rest) num_results results
  = scan_results rest num_results results.
Proof.
  unfold lacks_title_or_snippet. intros Hlacks. cbn [scan_results].
  destruct (find_result__a b), (find_result__snippet b);
    [discriminate | reflexivity ..].
Qed.

(** C7: a block that lacks the title element or the snippet element is
    skipped: alone it leaves the results unchanged and raises nothing;
    anywhere in a page the loop ends as it does on the page without it, for
    every maximum and every list of results collected so far; and so the
    search returns what it returns for the page without the block. *)
Theorem block_without_title_or_snippet_is_skipped
  (b : result_div) (before after : list result_div) (num_results : Z)
  (results : list record) :
  find_result__a b = None \/ find_result__snippet b = None ->
  scan_results [b] num_results results = Ok results
  /\ scan_results (before ++ b :: after) num_results results
     = scan_results (before ++ after) num_results results
  /\ (forall (w : world) (query : string) (r : response),
        w (search_request query) = Ok r ->
        raise_for_status r = None ->
        find_result_divs (text r) = (before ++ b :: after)%list ->
        run w (search_duckduckgo query num_results)
        = ([search_request query],
           caught (scan_results (before ++ after) num_results []))).
Proof.
  intros Hnone.
  assert (Hlacks : lacks_title_or_snippet b = true).
  { unfold lacks_title_or_snippet.
    destruct Hnone as [-> | ->]; [| destruct (find_result__a b)];
      reflexivity. }
  assert (Hpage : forall collected,
    scan_results (before ++ b :: after) num_results collected
    = scan_results (before ++ after) num_results collected).
  { induction before as [| d before IH]; intros collected.
    - cbn [app]. now apply scan_results_skip.
    - cbn [app scan_results].
      destruct (find_result__a d) as [title_element |];
        [destruct (find_result__snippet d) as [snippet_element |] |];
        try apply IH.
      destruct (resolve_link (href title_element)) as [link | e];
        cbn [exc_bind]; [| reflexivity].
      destruct (Z.of_nat _ >=? num_results)%Z; [reflexivity | apply IH]. }
  split; [| split].
  - now rewrite scan_results_skip.
  - apply Hpage.
  - intros w query r Hw Hstatus Hdivs.
    rewrite (run_search_duckduckgo_page w query num_results r Hw Hstatus).
    now rewrite Hdivs, Hpage.
Qed.

(** While fewer than [num_results] records are collected, the loop ends with
    at most [num_results] of them. *)
Lemma scan_results_bounded
  (divs : list result_div) (num_results : Z) (results out : list record) :
  (Z.of_nat (length results) < num_results)%Z ->
  scan_results divs num_results results = Ok out ->
  (Z.of_nat (length out) <= num_results)%Z.
Proof.
  revert results.
  induction divs as [| d divs IH]; intros results Hlt Hscan.
  - cbn in Hscan. injection Hscan as <-. lia.
  - cbn [scan_results] in Hscan.
    destruct (find_result__a d) as [title_element |];
      [destruct (find_result__snippet d) as [snippet_element |] |];
      try (eapply IH; eassumption).
    destruct (resolve_link (href title_element)) as [link | e];
      cbn [exc_bind] in Hscan; [| discriminate].
    match type of Hscan with
    | (if (Z.of_nat (length ?l) >=? _)%Z then _ else _) = _ =>
        assert (Hlen : length l = S (length results))
          by (rewrite length_app; cbn; lia);
        destruct (Z.geb_spec (Z.of_nat (length l)) num_results) as [Hge | Hlt']
    end.
    + injection Hscan as <-. rewrite Hlen. lia.
    + eapply IH; [| exact Hscan]. lia.
Qed.

(** Once the collected records reach [num_results], the blocks that follow
    are not visited: whatever they are, the outcome is the same. *)
Lemma scan_results_stops_at_maximum
  (divs more : list result_div) (num_results : Z) (results out : list record) :
  (Z.of_nat (length results) < num_results)%Z ->
  scan_results divs num_results results = Ok out ->
  (Z.of_nat (length out) >= num_results)%Z ->
  scan_results (divs ++ more) num_results results = Ok out.
Proof.
  revert results.
  induction divs as [| d divs IH]; intros results Hlt Hscan Hfull.
  - cbn in Hscan. injection Hscan as <-. lia.
  - cbn [app scan_results] in Hscan |- *.
    destruct (find_result__a d) as [title_element |];
      [destruct (find_result__snippet d) as [snippet_element |] |];
      try (eapply IH; eassumption).
    destruct (resolve_link (href title_element)) as [link | e];
      cbn [exc_bind] in Hscan |- *; [| discriminate].
    match type of Hscan with
    | (if (Z.of_nat (length ?l) >=? _)%Z then _ else _) = _ =>
        destruct (Z.geb_spec (Z.of_nat (length l)) num_results) as [Hge | Hlt']
    end.
    + exact Hscan.
    + eapply IH; [| exact Hscan | exact Hfull]. lia.
Qed.

(** For a maximum of at least one, a search never yields more records than
    the maximum (the sentinel record of a failure included). *)
Lemma search_duckduckgo_bounded
  (w : world) (query : string) (num_results : Z) (out : list record) :
  (1 <= num_results)%Z ->
  snd (run w (search_duckduckgo query num_results)) = Ok out ->
  (Z.of_nat (length out) <= num_results)%Z.
Proof.
  intros Hpos. unfold search_duckduckgo.
  rewrite run_try_except, run_bind, run_send.
  destruct (w (search_request query)) as [r | e]; cbn.
  - destruct (raise_for_status r) as [e |]; cbn.
    + intros [= <-]. cbn. lia.
    + destruct (scan_results (find_result_divs (text r)) num_results [])
        as [found | e] eqn:Hscan; cbn.
      * intros [= <-]. eapply scan_results_bounded; [| exact Hscan]. cbn. lia.
      * intros [= <-]. cbn. lia.
  - intros [= <-]. cbn. lia.
Qed.

(** C3: when the request raises (network error, timeout) or the status check
    raises, [search_duckduckgo] returns the list of exactly one record, whose
    content is the text of the exception, and [web_search] returns that text
    as an error message; nothing is raised. *)
Theorem transport_failure_yields_one_error_record
  (w : world) (query : string) (num_results : Z) (e : exn) :
  w (search_request query) = Err e
  \/ (exists r, w (search_request query) = Ok r
                /\ raise_for_status r = Some e) ->
  run w (search_duckduckgo query num_results)
  = ([search_request query], Ok [error_record e])
  /\ length [error_record e] = 1
  /\ run w (web_search query)
     = ([search_request query], Ok ("Error: " ++ exn_str e)).
Proof.
  intros Hfail.
  assert (Hsearch : forall n,
    run w (search_duckduckgo query n)
    = ([search_request query], Ok [error_record e])).
  { intros n. unfold search_duckduckgo.
    rewrite run_try_except, run_bind, run_send.
    destruct Hfail as [-> | [r [-> Hstatus]]]; cbn.
    - reflexivity.
    - rewrite Hstatus. reflexivity. }
  split; [apply Hsearch |]. split; [reflexivity |].
  unfold web_search. rewrite run_bind, Hsearch. reflexivity.
Qed.

(** C2, as amended: for a maximum of at least one, [search_duckduckgo]
    returns at most that many records whatever the network answers, and once
    the blocks read so far have filled the list the blocks after them are not
    examined: whatever they are, the result is the same. *)
Theorem positive_maximum_bounds_and_stops
  (w : world) (query : string) (num_results : Z) :
  (1 <= num_results)%Z ->
  (exists out,
     run w (search_duckduckgo query num_results)
     = ([search_request query], Ok out)
     /\ (Z.of_nat (length out) <= num_results)%Z)
  /\ (forall (r : response) (divs more : list result_div) (out : list record),
        w (search_request query) = Ok r ->
        raise_for_status r = None ->
        find_result_divs (text r) = (divs ++ more)%list ->
        scan_results divs num_results [] = Ok out ->
        (Z.of_nat (length out) >= num_results)%Z ->
        run w (search_duckduckgo query num_results)
        = ([search_request query], Ok out)).
Proof.
  intros Hpos. split.
  - unfold search_duckduckgo.
    rewrite run_try_except, run_bind, run_send.
    destruct (w (search_request query)) as [r | e]; cbn.
    + destruct (raise_for_status r) as [e |]; cbn.
      * eexists. split; [reflexivity |]. cbn. lia.
      * destruct (scan_results (find_result_divs (text r)) num_results [])
          as [found | e] eqn:Hscan; cbn.
        -- eexists. split; [reflexivity |].
           eapply scan_results_bounded; [| exact Hscan]. cbn. lia.
        -- eexists. split; [reflexivity |]. cbn. lia.
    + eexists. split; [reflexivity |]. cbn. lia.
  - intros r divs more out Hw Hstatus Hpage Hscan Hfull.
    rewrite (run_search_duckduckgo_page w query num_results r Hw Hstatus).
    rewrite Hpage.
    rewrite (scan_results_stops_at_maximum divs more num_results [] out);
      first [reflexivity | assumption | cbn; lia].
Qed.

End Properties.

(** C2, as stated, fails for a maximum of zero, which no call of the program
    requests ([web_search] passes 15): the count is compared with the
    maximum only after a record is appended, so one record is returned. *)
Theorem zero_maximum_returns_one_record :
  run page_world
    (search_duckduckgo
       (H := Sample.lib [block "Title" "https://example.com/" "Snippet";
                         block "Other" "https://example.org/" "More"])
       "query" 0)
  = ([search_request "query"],
     Ok [result_record "Title" "https://example.com/" "Snippet"])
  /\ (Z.of_nat (length [result_record "Title" "https://example.com/" "Snippet"])
      > 0)%Z.
Proof. split; reflexivity. Qed.

Lemma positive_maximum_bounds_and_stops_witness :
  exists out,
    run page_world (search_duckduckgo (H := Sample.lib sample_page) "query" 2)
    = ([search_request "query"], Ok out)
    /\ (Z.of_nat (length out) <= 2)%Z.
Proof.
  apply (positive_maximum_bounds_and_stops (H := Sample.lib sample_page)
           page_world "query" 2).
  lia.
Defined.

(** With the maximum [web_search] requests, on a page of seventeen complete
    blocks: fifteen records, the last two blocks unread. *)
Example fifteen_of_seventeen :
  let b := block "Title" "https://example.com/" "Snippet" in
  exists out,
    run page_world
      (search_duckduckgo
         (H := Sample.lib (repeat b 15 ++ [unlinked_block; b])) "query" 15)
    = ([search_request "query"], Ok out)
    /\ length out = 15.
Proof. eexists. split; reflexivity. Qed.

Lemma redirect_link_resolution_witness :
  resolve_link (H := Sample.lib [])
    (Some "/l/?uddg=https%3A%2F%2Fexample.com%2Fdocs&rut=0a1b")
  = Ok "https://example.com/docs".
Proof.
  apply (proj1 (redirect_link_resolution (H := Sample.lib [])
                  "/l/?uddg=https%3A%2F%2Fexample.com%2Fdocs&rut=0a1b"
                  eq_refl)
           "uddg=https%3A%2F%2Fexample.com%2Fdocs&rut=0a1b"
           [("uddg", ["https://example.com/docs"]); ("rut", ["0a1b"])]
           "https://example.com/docs" []);
    reflexivity.
Defined.

(** The other two branches on the sample library: no [uddg] parameter, and a
    link the parser refuses. *)
Example redirect_link_fallbacks :
  resolve_link (H := Sample.lib []) (Some "/about?ref=home")
  = Ok "https://duckduckgo.com/about?ref=home"
  /\ Sample.urlparse_query "//[l/?uddg=x" = Err (ValueError "Invalid IPv6 URL")
  /\ resolve_link (H := Sample.lib []) (Some "//[l/?uddg=x")
     = Ok "https://duckduckgo.com//[l/?uddg=x".
Proof. repeat split; reflexivity. Qed.

Lemma block_without_title_or_snippet_is_skipped_witness :
  scan_results (H := Sample.lib [])
    ([block "A" "https://a.example/" "a"]
       ++ mk_div None (Some (mk_tag "orphan" None))
       :: [block "B" "https://b.example/" "b"]) 15 []
  = scan_results (H := Sample.lib [])
      ([block "A" "https://a.example/" "a"]
         ++ [block "B" "https://b.example/" "b"]) 15 [].
Proof.
  apply (block_without_title_or_snippet_is_skipped (H := Sample.lib [])
           (mk_div None (Some (mk_tag "orphan" None)))
           [block "A" "https://a.example/" "a"]
           [block "B" "https://b.example/" "b"] 15 []).
  left. reflexivity.
Defined.

Lemma transport_failure_yields_one_error_record_witness :
  run (fun _ => Err (mk_exn "ConnectTimeout" "timed out"))
    (search_duckduckgo (H := Sample.lib []) "query" 15)
  = ([search_request "query"], Ok [[("error", "timed out")]]).
Proof.
  apply (transport_failure_yields_one_error_record (H := Sample.lib [])
           (fun _ => Err (mk_exn "ConnectTimeout" "timed out"))
           "query" 15 (mk_exn "ConnectTimeout" "timed out")).
  left. reflexivity.
Defined.

(** A non-success status on the sample library. *)
Example status_failure_error_record :
  run (fun _ => Ok (mk_response 503 "" (Err (ValueError "not JSON"))))
    (web_search (H := Sample.lib []) "query")
  = ([search_request "query"], Ok "Error: Error response 503").
Proof. reflexivity. Qed.

End WebSearchProofs.

(** * Further facts about the Python model *)
Module PyMore.
Import Py PyFacts.

(** Joining the parts of a split with the separator gives the text back. *)
Lemma join_split (sep : ascii) (s : string) :
  join (String sep EmptyString) (split sep s) = s.
Proof.
  induction s as [| c s IH]; [reflexivity |].
  cbn [split]. destruct (Ascii.eqb_spec c sep) as [-> | Hne].
  - destruct (split sep s) as [| q qs] eqn:Hsplit.
    + pose proof (split_length sep s) as Hlen. rewrite Hsplit in Hlen.
      discriminate.
    + cbn [join]. cbn [join] in IH. rewrite IH. reflexivity.
  - destruct (split sep s) as [| q qs] eqn:Hsplit.
    + pose proof (split_length sep s) as Hlen. rewrite Hsplit in Hlen.
      discriminate.
    + rewrite <- IH. destruct qs; reflexivity.
Qed.

Lemma split_two (sep : ascii) (s a b : string) :
  split sep s = [a; b] -> s = a ++ String sep b.
Proof.
  intros Hsplit. rewrite <- (join_split sep s), Hsplit. reflexivity.
Qed.

Lemma split_two_iff_one_separator (sep : ascii) (s : string) :
  count_char sep s = 1 <-> exists a b, split sep s = [a; b].
Proof.
  pose proof (split_length sep s) as Hlen. split.
  - intros Hone. rewrite Hone in Hlen.
    destruct (split sep s) as [| a [| b [| c l]]]; try discriminate. eauto.
  - intros [a [b Hsplit]]. rewrite Hsplit in Hlen. cbn in Hlen. lia.
Qed.

Lemma append_assoc (a b c : string) : (a ++ b) ++ c = a ++ b ++ c.
Proof. induction a as [| x a IH]; cbn; [reflexivity | now rewrite IH]. Qed.

(** ** [strip] *)

Lemma rstrip_idempotent (s : string) : rstrip (rstrip s) = rstrip s.
Proof.
  induction s as [| c s IH]; [reflexivity |].
  cbn [rstrip]. destruct (rstrip s) as [| d r] eqn:Hr.
  - destruct (is_space c) eqn:Hc; [reflexivity |].
    cbn [rstrip]. now rewrite Hc.
  - cbn [rstrip]. cbn [rstrip] in IH.
    destruct (match rstrip r with
              | EmptyString =>
                  if is_space d then EmptyString else String d EmptyString
              | String a s0 => String d (String a s0)
              end); [discriminate IH | now rewrite IH].
Qed.

Lemma lstrip_head (s : string) :
  match lstrip s with
  | EmptyString => True
  | String c _ => is_space c = false
  end.
Proof.
  induction s as [| c s IH]; cbn [lstrip]; [exact I |].
  destruct (is_space c) eqn:Hc; [exact IH | exact Hc].
Qed.

Lemma rstrip_keeps_head (c : ascii) (s : string) :
  is_space c = false -> exists r, rstrip (String c s) = String c r.
Proof.
  intros Hc. cbn [rstrip]. destruct (rstrip s); [rewrite Hc |]; eauto.
Qed.

(** Stripping a stripped text changes nothing. *)
Lemma strip_idempotent (s : string) : strip (strip s) = strip s.
Proof.
  unfold strip. pose proof (lstrip_head s) as Hhead.
  destruct (lstrip s) as [| c t] eqn:Hl; [reflexivity |].
  destruct (rstrip_keeps_head c t Hhead) as [r Hr]. rewrite Hr.
  cbn [lstrip]. rewrite Hhead, <- Hr. apply rstrip_idempotent.
Qed.

(** ** Programs that send nothing *)

Lemma pure_ret {A} (a : A) : pure (Ret a).
Proof. now exists (Ok a). Qed.

Lemma pure_lift {A} (m : exc A) : pure (lift m).
Proof. now exists m. Qed.

Lemma pure_bind {A B} (p : io A) (f : A -> io B) :
  pure p -> (forall a, pure (f a)) -> pure (bind p f).
Proof.
  intros [m ->] Hf. destruct m as [a | e]; cbn.
  - apply Hf.
  - now exists (Err e).
Qed.

Lemma pure_if {A} (b : bool) (p q : io A) :
  pure p -> pure q -> pure (if b then p else q).
Proof. now destruct b. Qed.

Lemma run_pure {A} (w : world) (p : io A) : pure p -> fst (run w p) = [].
Proof. intros [m ->]. now rewrite run_lift. Qed.

(** After one request, a program whose continuation is pure has sent that
    request and no other. *)
Lemma run_bind_pure {A B} (w : world) (p : io A) (f : A -> io B) :
  (forall a, pure (f a)) ->
  fst (run w (bind p f)) = fst (run w p).
Proof.
  intros Hf. rewrite run_bind.
  destruct (run w p) as [sent [a | e]]; [| reflexivity].
  pose proof (run_pure w (f a) (Hf a)) as Hsilent.
  destruct (run w (f a)) as [sent' res]. cbn in *. subst.
  now rewrite app_nil_r.
Qed.

End PyMore.

(** * Further properties of [github3.py] *)
Module Github3More.
Import Py PyFacts PyMore Github3 Github3Spec Github3Proofs.

Ltac py_simpl :=
  cbn -[get_github_contents has_key lookup b64decode_decode append
        format_entries format_matches join string_of_Z repr_str].

Ltac solve_pure :=
  repeat (intros;
          first [ apply pure_ret | apply pure_lift | apply pure_bind
                | apply pure_if
                | match goal with
                  | |- pure (let (_, _) := ?x in _) => destruct x
                  end ]).

Section Properties.
Context `{PyLib}.

Lemma sent_get_github_contents
  (w : world) (owner repo_name path ref : string) :
  fst (run w (get_github_contents owner repo_name path ref))
  = [contents_request owner repo_name path ref].
Proof.
  unfold get_github_contents. rewrite run_bind_pure by solve_pure.
  now rewrite run_send.
Qed.

Ltac with_contents Hsplit Hw Hstatus Hbody :=
  unfold github_get_file, github_list_directory; rewrite Hsplit; py_simpl;
  rewrite run_bind, (run_get_github_contents_ok _ _ _ _ _ _ Hw Hstatus), Hbody;
  py_simpl.

(** A status other than 200 comes back from each of the three tools as a
    message with the status code and the body of the response. *)
Theorem status_failure_is_reported
  (w : world) (repo owner repo_name path query branch : string)
  (r r' : response) :
  split "/" repo = [owner; repo_name] ->
  w (contents_request owner repo_name path branch) = Ok r ->
  status_code r <> 200%Z ->
  w (search_request owner repo_name query branch) = Ok r' ->
  status_code r' <> 200%Z ->
  run w (github_get_file repo path branch)
  = ([contents_request owner repo_name path branch],
     Ok ("Error: GitHub API error: " ++ string_of_Z (status_code r)
         ++ " - " ++ text r))
  /\ run w (github_list_directory repo path branch)
     = ([contents_request owner repo_name path branch],
        Ok ("Error: GitHub API error: " ++ string_of_Z (status_code r)
            ++ " - " ++ text r))
  /\ run w (github_search_code repo query branch)
     = ([search_request owner repo_name query branch],
        Ok ("Error: GitHub API error: " ++ string_of_Z (status_code r')
            ++ " - " ++ text r')).
Proof.
  intros Hsplit Hw Hstatus Hw' Hstatus'. repeat split.
  - unfold github_get_file. rewrite Hsplit. py_simpl.
    rewrite run_bind, (run_get_github_contents_status _ _ _ _ _ r Hw Hstatus).
    reflexivity.
  - unfold github_list_directory. rewrite Hsplit. py_simpl.
    rewrite run_bind, (run_get_github_contents_status _ _ _ _ _ r Hw Hstatus).
    reflexivity.
  - unfold github_search_code. rewrite Hsplit. py_simpl. rewrite Hw'. py_simpl.
    destruct (Z.eqb_spec (status_code r') 200) as [Heq | _]; [contradiction |].
    reflexivity.
Qed.

(** The three tools have no handler: when the request raises, or the body of
    a 200 response is not JSON, the exception leaves the tool. *)
Theorem request_exception_leaves_the_tool
  (w : world) (repo owner repo_name path query branch : string) (e e' : exn) :
  split "/" repo = [owner; repo_name] ->
  (w (contents_request owner repo_name path branch) = Err e
   \/ exists r, w (contents_request owner repo_name path branch) = Ok r
                /\ status_code r = 200%Z /\ body_json r = Err e) ->
  (w (search_request owner repo_name query branch) = Err e'
   \/ exists r, w (search_request owner repo_name query branch) = Ok r
                /\ status_code r = 200%Z /\ body_json r = Err e') ->
  run w (github_get_file repo path branch)
  = ([contents_request owner repo_name path branch], Err e)
  /\ run w (github_list_directory repo path branch)
     = ([contents_request owner repo_name path branch], Err e)
  /\ run w (github_search_code repo query branch)
     = ([search_request owner repo_name query branch], Err e').
Proof.
  intros Hsplit Hcontents Hsearch.
  assert (Hget : run w (get_github_contents owner repo_name path branch)
                 = ([contents_request owner repo_name path branch], Err e)).
  { destruct Hcontents as [Hw | [r [Hw [Hstatus Hbody]]]].
    - unfold get_github_contents. rewrite run_bind, run_send, Hw. reflexivity.
    - rewrite (run_get_github_contents_ok _ _ _ _ _ r Hw Hstatus).
      now rewrite Hbody. }
  repeat split.
  - unfold github_get_file. rewrite Hsplit. py_simpl.
    now rewrite run_bind, Hget.
  - unfold github_list_directory. rewrite Hsplit. py_simpl.
    now rewrite run_bind, Hget.
  - unfold github_search_code. rewrite Hsplit. py_simpl.
    destruct Hsearch as [Hw | [r [Hw [Hstatus Hbody]]]]; rewrite Hw; py_simpl.
    + reflexivity.
    + rewrite Hstatus, Hbody. reflexivity.
Qed.

(** Contents with an ["error"] key are reported first, whatever else they
    hold: both content tools return the text of that entry. *)
Theorem error_entry_is_reported
  (w : world) (repo owner repo_name path branch : string) (r : response)
  (d : list (string * json)) (reason : json) :
  split "/" repo = [owner; repo_name] ->
  w (contents_request owner repo_name path branch) = Ok r ->
  status_code r = 200%Z ->
  body_json r = Ok (JDict d) ->
  lookup "error" d = Some reason ->
  run w (github_get_file repo path branch)
  = ([contents_request owner repo_name path branch],
     Ok ("Error: " ++ py_str reason))
  /\ run w (github_list_directory repo path branch)
     = ([contents_request owner repo_name path branch],
        Ok ("Error: " ++ py_str reason)).
Proof.
  intros Hsplit Hw Hstatus Hbody Herror.
  split; with_contents Hsplit Hw Hstatus Hbody;
    unfold has_key; rewrite Herror; reflexivity.
Qed.

(** The membership test for ["error"] comes before any test of the shape:
    contents that are [null], a boolean or a number make both content tools
    raise [TypeError]. *)
Theorem scalar_contents_raise_type_error
  (w : world) (repo owner repo_name path branch : string) (r : response)
  (contents : json) :
  split "/" repo = [owner; repo_name] ->
  w (contents_request owner repo_name path branch) = Ok r ->
  status_code r = 200%Z ->
  body_json r = Ok contents ->
  is_scalar contents = true ->
  run w (github_get_file repo path branch)
  = ([contents_request owner repo_name path branch],
     Err (TypeError ("argument of type '" ++ type_name contents
                     ++ "' is not iterable")))
  /\ run w (github_list_directory repo path branch)
     = ([contents_request owner repo_name path branch],
        Err (TypeError ("argument of type '" ++ type_name contents
                        ++ "' is not iterable"))).
Proof.
  intros Hsplit Hw Hstatus Hbody Hscalar.
  split; with_contents Hsplit Hw Hstatus Hbody;
    destruct contents; try discriminate; reflexivity.
Qed.

(** Contents of a type other than ["file"] (a directory entry, a symlink,
    a submodule) are refused by [github_get_file] with the path in the
    message. *)
Theorem other_type_is_not_a_file
  (w : world) (repo owner repo_name path branch : string) (r : response)
  (d : list (string * json)) (ty : json) :
  split "/" repo = [owner; repo_name] ->
  w (contents_request owner repo_name path branch) = Ok r ->
  status_code r = 200%Z ->
  body_json r = Ok (JDict d) ->
  has_key "error" d = false ->
  lookup "type" d = Some ty ->
  eq_str ty "file" = false ->
  run w (github_get_file repo path branch)
  = ([contents_request owner repo_name path branch],
     Ok ("Error: Path '" ++ path ++ "' is not a file")).
Proof.
  intros Hsplit Hw Hstatus Hbody Herror Htype Hother.
  with_contents Hsplit Hw Hstatus Hbody. rewrite Herror. py_simpl.
  unfold has_key. rewrite Htype. py_simpl. rewrite Hother. reflexivity.
Qed.

(** A directory listing (a list of objects), or an object with neither an
    ["error"] nor a ["type"] key, is an unexpected format for
    [github_get_file]. *)
Theorem listing_or_untyped_is_unexpected
  (w : world) (repo owner repo_name path branch : string) (r : response)
  (contents : json) :
  split "/" repo = [owner; repo_name] ->
  w (contents_request owner repo_name path branch) = Ok r ->
  status_code r = 200%Z ->
  body_json r = Ok contents ->
  (exists items, contents = JList items
                 /\ forallb isinstance_dict items = true)
  \/ (exists d, contents = JDict d
                /\ has_key "error" d = false /\ has_key "type" d = false) ->
  run w (github_get_file repo path branch)
  = ([contents_request owner repo_name path branch],
     Ok "Error: Unexpected API response format").
Proof.
  intros Hsplit Hw Hstatus Hbody Hshape.
  with_contents Hsplit Hw Hstatus Hbody.
  destruct Hshape as [[items [-> Hitems]] | [d [-> [Herror Htype]]]]; py_simpl.
  - rewrite (no_error_among_entries items Hitems). reflexivity.
  - rewrite Herror. py_simpl. rewrite Htype. reflexivity.
Qed.

(** A file without a content field, or with an encoding other than
    ["base64"], is not decoded: [github_get_file] says so, whatever the
    decoder would do. *)
Theorem file_without_base64_content_is_not_decoded
  (w : world) (repo owner repo_name path branch : string) (r : response)
  (d : list (string * json)) :
  split "/" repo = [owner; repo_name] ->
  w (contents_request owner repo_name path branch) = Ok r ->
  status_code r = 200%Z ->
  body_json r = Ok (JDict d) ->
  has_key "error" d = false ->
  lookup "type" d = Some (JStr "file") ->
  has_key "content" d = false
  \/ (exists enc, lookup "encoding" d = Some enc
                  /\ eq_str enc "base64" = false) ->
  run w (github_get_file repo path branch)
  = ([contents_request owner repo_name path branch],
     Ok "Error: Could not decode file content").
Proof.
  intros Hsplit Hw Hstatus Hbody Herror Htype Hcase.
  with_contents Hsplit Hw Hstatus Hbody. rewrite Herror. py_simpl.
  unfold has_key at 1. rewrite Htype. py_simpl.
  destruct Hcase as [Hcontent | [enc [Henc Hother]]].
  - rewrite Hcontent. reflexivity.
  - destruct (has_key "content" d); [| reflexivity].
    rewrite Henc. py_simpl. rewrite Hother. reflexivity.
Qed.

(** The decoding of the content is not guarded: when it raises (text that is
    not base64, bytes that are not UTF-8, a content that is no text), the
    exception leaves [github_get_file]. *)
Theorem decoding_exception_leaves_get_file
  (w : world) (repo owner repo_name path branch : string) (r : response)
  (d : list (string * json)) (content : json) (e : exn) :
  split "/" repo = [owner; repo_name] ->
  w (contents_request owner repo_name path branch) = Ok r ->
  status_code r = 200%Z ->
  body_json r = Ok (JDict d) ->
  has_key "error" d = false ->
  lookup "type" d = Some (JStr "file") ->
  lookup "content" d = Some content ->
  lookup "encoding" d = Some (JStr "base64") ->
  b64decode_decode content = Err e ->
  run w (github_get_file repo path branch)
  = ([contents_request owner repo_name path branch], Err e).
Proof.
  intros Hsplit Hw Hstatus Hbody Herror Htype Hcontent Hencoding Hdecode.
  with_contents Hsplit Hw Hstatus Hbody. rewrite Herror. py_simpl.
  unfold has_key. rewrite Htype. py_simpl.
  rewrite Hcontent, Hencoding. py_simpl. rewrite Hdecode. reflexivity.
Qed.

(** Contents that are an object without an ["error"] key (a file, for
    one) are no directory for [github_list_directory]. *)
Theorem object_is_not_a_directory
  (w : world) (repo owner repo_name path branch : string) (r : response)
  (d : list (string * json)) :
  split "/" repo = [owner; repo_name] ->
  w (contents_request owner repo_name path branch) = Ok r ->
  status_code r = 200%Z ->
  body_json r = Ok (JDict d) ->
  has_key "error" d = false ->
  run w (github_list_directory repo path branch)
  = ([contents_request owner repo_name path branch],
     Ok ("Error: Path '" ++ path
         ++ "' is not a directory or the API returned unexpected data")).
Proof.
  intros Hsplit Hw Hstatus Hbody Herror.
  with_contents Hsplit Hw Hstatus Hbody. rewrite Herror. reflexivity.
Qed.

(** A search answer without an ["items"] entry, or whose entry is empty
    (an empty list, [null], zero, an empty text), reports that nothing
    matched. *)
Theorem search_without_items_finds_nothing
  (w : world) (repo owner repo_name query branch : string) (r : response)
  (envelope : list (string * json)) :
  split "/" repo = [owner; repo_name] ->
  w (search_request owner repo_name query branch) = Ok r ->
  status_code r = 200%Z ->
  body_json r = Ok (JDict envelope) ->
  lookup "items" envelope = None
  \/ (exists items, lookup "items" envelope = Some items
                    /\ truthy items = false) ->
  run w (github_search_code repo query branch)
  = ([search_request owner repo_name query branch],
     Ok "No matching files found.").
Proof.
  intros Hsplit Hw Hstatus Hbody Hitems.
  unfold github_search_code. rewrite Hsplit. py_simpl.
  rewrite Hw. py_simpl. rewrite Hstatus, Hbody. py_simpl.
  destruct Hitems as [-> | [items [-> Hfalsy]]]; py_simpl.
  - reflexivity.
  - rewrite Hfalsy. reflexivity.
Qed.

Lemma format_matches_non_dict
  (good rest : list json) (culprit : json) (i : Z) (formatted : list string) :
  forallb isinstance_dict good = true ->
  isinstance_dict culprit = false ->
  format_matches (good ++ culprit :: rest) i formatted
  = Err (AttributeError ("'" ++ type_name culprit
                         ++ "' object has no attribute 'get'")).
Proof.
  revert i formatted.
  induction good as [| item good IH]; intros i formatted Hgood Hculprit.
  - destruct culprit; try discriminate; reflexivity.
  - cbn [forallb] in Hgood. apply andb_prop in Hgood as [Hitem Hgood].
    destruct item as [| | | | | d]; try discriminate.
    cbn [app format_matches get].
    destruct (lookup "name" d), (lookup "path" d), (lookup "html_url" d);
      cbn [exc_bind]; now apply IH.
Qed.

(** [.get] guards a search match against a missing field only: an answer
    that is no object, or a first match that is no object, raises
    [AttributeError] out of [github_search_code]. *)
Theorem search_non_object_raises
  (w : world) (repo owner repo_name query branch : string) (r : response)
  (answer culprit : json) :
  split "/" repo = [owner; repo_name] ->
  w (search_request owner repo_name query branch) = Ok r ->
  status_code r = 200%Z ->
  body_json r = Ok answer ->
  isinstance_dict culprit = false ->
  answer = culprit
  \/ (exists envelope good rest,
        answer = JDict envelope
        /\ lookup "items" envelope = Some (JList (good ++ culprit :: rest))
        /\ forallb isinstance_dict good = true) ->
  run w (github_search_code repo query branch)
  = ([search_request owner repo_name query branch],
     Err (AttributeError ("'" ++ type_name culprit
                          ++ "' object has no attribute 'get'"))).
Proof.
  intros Hsplit Hw Hstatus Hbody Hculprit Hcase.
  unfold github_search_code. rewrite Hsplit. py_simpl.
  rewrite Hw. py_simpl. rewrite Hstatus, Hbody. py_simpl.
  destruct Hcase as [-> | [envelope [good [rest [-> [Hitems Hgood]]]]]].
  - destruct culprit; try discriminate; reflexivity.
  - py_simpl. rewrite Hitems.
    remember (good ++ culprit :: rest)%list as items eqn:Hlist.
    destruct items as [| item items]; [destruct good; discriminate |].
    py_simpl. rewrite Hlist.
    rewrite (format_matches_non_dict good rest culprit 1 [] Hgood Hculprit).
    reflexivity.
Qed.

(** The quota reads 0 when the rate-limit answer is an object that lacks
    ["resources"], or whose resources lack ["core"], or whose core lacks
    ["remaining"]. *)
Theorem missing_quota_reads_zero
  (w : world) (r : response) (info : list (string * json)) :
  w rate_limit_request = Ok r ->
  status_code r = 200%Z ->
  body_json r = Ok (JDict info) ->
  lookup "resources" info = None
  \/ (exists resources,
        lookup "resources" info = Some (JDict resources)
        /\ (lookup "core" resources = None
            \/ exists core,
                 lookup "core" resources = Some (JDict core)
                 /\ lookup "remaining" core = None)) ->
  run w check_github_connection
  = ([rate_limit_request], Ok (quota_message (JInt 0))).
Proof.
  intros Hw Hstatus Hbody Hmissing.
  unfold check_github_connection. py_simpl.
  rewrite Hw. py_simpl. rewrite Hstatus, Hbody. py_simpl.
  destruct Hmissing
    as [Hres | [resources [Hres [Hcore | [core [Hcore Hrem]]]]]];
    rewrite Hres; py_simpl; try rewrite Hcore; py_simpl; try rewrite Hrem;
    reflexivity.
Qed.

(** An answer whose ["resources"] or ["core"] entry is no object is
    reported as an error of the connection, with the text of the
    [AttributeError]. *)
Theorem malformed_quota_is_reported_as_error
  (w : world) (r : response) (info : list (string * json)) (culprit : json) :
  w rate_limit_request = Ok r ->
  status_code r = 200%Z ->
  body_json r = Ok (JDict info) ->
  isinstance_dict culprit = false ->
  lookup "resources" info = Some culprit
  \/ (exists resources,
        lookup "resources" info = Some (JDict resources)
        /\ lookup "core" resources = Some culprit) ->
  run w check_github_connection
  = ([rate_limit_request],
     Ok ("Error: '" ++ type_name culprit
         ++ "' object has no attribute 'get'")).
Proof.
  intros Hw Hstatus Hbody Hculprit Hcase.
  unfold check_github_connection. py_simpl.
  rewrite Hw. py_simpl. rewrite Hstatus, Hbody. py_simpl.
  destruct Hcase as [Hres | [resources [Hres Hcore]]];
    rewrite Hres; py_simpl; try rewrite Hcore;
    destruct culprit; try discriminate; reflexivity.
Qed.

(** A reference with exactly one slash makes each of the three tools send
    exactly one request, whatever comes back; the reference is used as
    written in the URL of the contents request and in the search query. *)
Theorem one_slash_reference_sends_one_request
  (w : world) (repo path query branch : string) :
  count_char "/" repo = 1 ->
  map rq_url (fst (run w (github_get_file repo path branch)))
  = [contents_url repo path]
  /\ map rq_url (fst (run w (github_list_directory repo path branch)))
     = [contents_url repo path]
  /\ map rq_params (fst (run w (github_get_file repo path branch)))
     = [[("ref", branch)]]
  /\ map rq_params (fst (run w (github_list_directory repo path branch)))
     = [[("ref", branch)]]
  /\ map rq_url (fst (run w (github_search_code repo query branch)))
     = [GITHUB_API_BASE ++ "/search/code"]
  /\ map rq_params (fst (run w (github_search_code repo query branch)))
     = [[("q", query ++ " in:file repo:" ++ repo ++ " ref:" ++ branch)]].
Proof.
  intros Hone.
  apply split_two_iff_one_separator in Hone as [owner [repo_name Hsplit]].
  pose proof (split_two _ _ _ _ Hsplit) as Hrepo.
  assert (Hurl : rq_url (contents_request owner repo_name path branch)
                 = contents_url repo path).
  { unfold contents_url. rewrite Hrepo. cbn [contents_request rq_url].
    now rewrite !append_assoc. }
  assert (Hq : rq_params (search_request owner repo_name query branch)
               = [("q", query ++ " in:file repo:" ++ repo ++ " ref:" ++ branch)]).
  { rewrite Hrepo. cbn [search_request rq_params].
    now rewrite !append_assoc. }
  assert (Hfile : fst (run w (github_get_file repo path branch))
                  = [contents_request owner repo_name path branch]).
  { unfold github_get_file. rewrite Hsplit. py_simpl.
    rewrite run_bind_pure by solve_pure. apply sent_get_github_contents. }
  assert (Hlist : fst (run w (github_list_directory repo path branch))
                  = [contents_request owner repo_name path branch]).
  { unfold github_list_directory. rewrite Hsplit. py_simpl.
    rewrite run_bind_pure by solve_pure. apply sent_get_github_contents. }
  assert (Hsearch : fst (run w (github_search_code repo query branch))
                    = [search_request owner repo_name query branch]).
  { unfold github_search_code. rewrite Hsplit.
    cbn -[send append string_of_Z join format_matches].
    rewrite run_bind_pure by solve_pure. now rewrite run_send. }
  rewrite Hfile, Hlist, Hsearch. cbn [map]. rewrite Hurl, Hq.
  repeat split.
Qed.

End Properties.

Lemma status_failure_is_reported_witness :
  run (always not_found)
    (github_get_file (H := Sample.lib []) "owner/repo" "README.md" "main")
  = ([contents_request "owner" "repo" "README.md" "main"],
     Ok "Error: GitHub API error: 404 - Not Found").
Proof.
  apply (status_failure_is_reported (H := Sample.lib []) (always not_found)
           "owner/repo" "owner" "repo" "README.md" "parse" "main"
           not_found not_found);
    first [reflexivity | discriminate].
Defined.

Lemma request_exception_leaves_the_tool_witness :
  run (fun _ => Err timed_out)
    (github_get_file (H := Sample.lib []) "owner/repo" "README.md" "main")
  = ([contents_request "owner" "repo" "README.md" "main"], Err timed_out).
Proof.
  apply (request_exception_leaves_the_tool (H := Sample.lib [])
           (fun _ => Err timed_out)
           "owner/repo" "owner" "repo" "README.md" "parse" "main"
           timed_out timed_out);
    first [reflexivity | left; reflexivity].
Defined.

Lemma error_entry_is_reported_witness :
  run (always (ok_json (JDict [("error", JStr "quota")])))
    (github_list_directory "owner/repo" "src" "main")
  = ([contents_request "owner" "repo" "src" "main"], Ok "Error: quota").
Proof.
  apply (error_entry_is_reported (H := Sample.lib [])
           (always (ok_json (JDict [("error", JStr "quota")])))
           "owner/repo" "owner" "repo" "src" "main"
           (ok_json (JDict [("error", JStr "quota")]))
           [("error", JStr "quota")] (JStr "quota"));
    reflexivity.
Defined.

Lemma scalar_contents_raise_type_error_witness :
  run (always (ok_json JNull))
    (github_get_file (H := Sample.lib []) "owner/repo" "README.md" "main")
  = ([contents_request "owner" "repo" "README.md" "main"],
     Err (TypeError "argument of type 'NoneType' is not iterable")).
Proof.
  apply (scalar_contents_raise_type_error (H := Sample.lib [])
           (always (ok_json JNull))
           "owner/repo" "owner" "repo" "README.md" "main"
           (ok_json JNull) JNull);
    reflexivity.
Defined.

Lemma other_type_is_not_a_file_witness :
  run (always (ok_json (JDict sample_directory_entry)))
    (github_get_file (H := Sample.lib []) "owner/repo" "src" "main")
  = ([contents_request "owner" "repo" "src" "main"],
     Ok "Error: Path 'src' is not a file").
Proof.
  apply (other_type_is_not_a_file (H := Sample.lib [])
           (always (ok_json (JDict sample_directory_entry)))
           "owner/repo" "owner" "repo" "src" "main"
           (ok_json (JDict sample_directory_entry))
           sample_directory_entry (JStr "dir"));
    reflexivity.
Defined.

Lemma listing_or_untyped_is_unexpected_witness :
  run (always (ok_json (JList sample_listing)))
    (github_get_file (H := Sample.lib []) "owner/repo" "src" "main")
  = ([contents_request "owner" "repo" "src" "main"],
     Ok "Error: Unexpected API response format").
Proof.
  apply (listing_or_untyped_is_unexpected (H := Sample.lib [])
           (always (ok_json (JList sample_listing)))
           "owner/repo" "owner" "repo" "src" "main"
           (ok_json (JList sample_listing)) (JList sample_listing));
    try reflexivity.
  left. exists sample_listing. split; reflexivity.
Defined.

Lemma file_without_base64_content_is_not_decoded_witness :
  run (always (ok_json (JDict [("type", JStr "file"); ("content", JStr "");
                               ("encoding", JStr "none")])))
    (github_get_file (H := Sample.lib []) "owner/repo" "big.bin" "main")
  = ([contents_request "owner" "repo" "big.bin" "main"],
     Ok "Error: Could not decode file content").
Proof.
  apply (file_without_base64_content_is_not_decoded (H := Sample.lib [])
           (always (ok_json (JDict [("type", JStr "file");
                                    ("content", JStr "");
                                    ("encoding", JStr "none")])))
           "owner/repo" "owner" "repo" "big.bin" "main"
           (ok_json (JDict [("type", JStr "file"); ("content", JStr "");
                            ("encoding", JStr "none")]))
           [("type", JStr "file"); ("content", JStr "");
            ("encoding", JStr "none")]);
    try reflexivity.
  right. exists (JStr "none"). split; reflexivity.
Defined.

Lemma decoding_exception_leaves_get_file_witness :
  run (always (ok_json (JDict [("type", JStr "file"); ("content", JStr "gA==");
                               ("encoding", JStr "base64")])))
    (github_get_file (H := Sample.lib []) "owner/repo" "logo.png" "main")
  = ([contents_request "owner" "repo" "logo.png" "main"],
     Err (mk_exn "UnicodeDecodeError" "'utf-8' codec can't decode byte")).
Proof.
  apply (decoding_exception_leaves_get_file (H := Sample.lib [])
           (always (ok_json (JDict [("type", JStr "file");
                                    ("content", JStr "gA==");
                                    ("encoding", JStr "base64")])))
           "owner/repo" "owner" "repo" "logo.png" "main"
           (ok_json (JDict [("type", JStr "file"); ("content", JStr "gA==");
                            ("encoding", JStr "base64")]))
           [("type", JStr "file"); ("content", JStr "gA==");
            ("encoding", JStr "base64")]
           (JStr "gA=="));
    reflexivity.
Defined.

Lemma object_is_not_a_directory_witness :
  run (always (ok_json (JDict [("type", JStr "file");
                               ("name", JStr "README.md")])))
    (github_list_directory "owner/repo" "README.md" "main")
  = ([contents_request "owner" "repo" "README.md" "main"],
     Ok "Error: Path 'README.md' is not a directory or the API returned unexpected data").
Proof.
  apply (object_is_not_a_directory
           (always (ok_json (JDict [("type", JStr "file");
                                    ("name", JStr "README.md")])))
           "owner/repo" "owner" "repo" "README.md" "main"
           (ok_json (JDict [("type", JStr "file");
                            ("name", JStr "README.md")]))
           [("type", JStr "file"); ("name", JStr "README.md")]);
    reflexivity.
Defined.

Lemma search_without_items_finds_nothing_witness :
  run (always (ok_json (JDict [("total_count", JInt 0);
                               ("items", JList [])])))
    (github_search_code "owner/repo" "parse" "main")
  = ([search_request "owner" "repo" "parse" "main"],
     Ok "No matching files found.").
Proof.
  apply (search_without_items_finds_nothing
           (always (ok_json (JDict [("total_count", JInt 0);
                                    ("items", JList [])])))
           "owner/repo" "owner" "repo" "parse" "main"
           (ok_json (JDict [("total_count", JInt 0); ("items", JList [])]))
           [("total_count", JInt 0); ("items", JList [])]);
    try reflexivity.
  right. exists (JList []). split; reflexivity.
Defined.

Lemma search_non_object_raises_witness :
  run (always (ok_json (JDict [("items",
                                JList [JDict [("name", JStr "a.py")];
                                       JStr "b.py"])])))
    (github_search_code "owner/repo" "parse" "main")
  = ([search_request "owner" "repo" "parse" "main"],
     Err (AttributeError "'str' object has no attribute 'get'")).
Proof.
  apply (search_non_object_raises
           (always (ok_json (JDict [("items",
                                     JList [JDict [("name", JStr "a.py")];
                                            JStr "b.py"])])))
           "owner/repo" "owner" "repo" "parse" "main"
           (ok_json (JDict [("items",
                             JList [JDict [("name", JStr "a.py")];
                                    JStr "b.py"])]))
           (JDict [("items",
                    JList [JDict [("name", JStr "a.py")]; JStr "b.py"])])
           (JStr "b.py"));
    try reflexivity.
  right.
  exists [("items", JList [JDict [("name", JStr "a.py")]; JStr "b.py"])],
         [JDict [("name", JStr "a.py")]], [].
  repeat split; reflexivity.
Defined.

Lemma missing_quota_reads_zero_witness :
  run (always (ok_json (JDict [("resources", JDict [("search", JDict [])])])))
    check_github_connection
  = ([rate_limit_request],
     Ok "GitHub API connection successful. Remaining rate limit: 0 requests.").
Proof.
  apply (missing_quota_reads_zero
           (always (ok_json (JDict [("resources",
                                     JDict [("search", JDict [])])])))
           (ok_json (JDict [("resources", JDict [("search", JDict [])])]))
           [("resources", JDict [("search", JDict [])])]);
    try reflexivity.
  right. exists [("search", JDict [])]. split; [reflexivity |].
  left. reflexivity.
Defined.

Lemma malformed_quota_is_reported_as_error_witness :
  run (always (ok_json (JDict [("resources", JList [])])))
    check_github_connection
  = ([rate_limit_request],
     Ok "Error: 'list' object has no attribute 'get'").
Proof.
  apply (malformed_quota_is_reported_as_error
           (always (ok_json (JDict [("resources", JList [])])))
           (ok_json (JDict [("resources", JList [])]))
           [("resources", JList [])] (JList []));
    try reflexivity.
  left. reflexivity.
Defined.

Lemma one_slash_reference_sends_one_request_witness :
  map rq_url
    (fst (run (always not_found)
            (github_get_file (H := Sample.lib []) "owner/repo" "README.md"
               "main")))
  = ["https://api.github.com/repos/owner/repo/contents/README.md"].
Proof.
  apply (one_slash_reference_sends_one_request (H := Sample.lib [])
           (always not_found) "owner/repo" "README.md" "parse" "main").
  reflexivity.
Defined.

End Github3More.

(** * Further properties of [web_search.py] *)
Module WebSearchMore.
Import Py PyFacts PyMore WebSearch WebSearchSpec WebSearchProofs.

Section Properties.
Context `{PyLib}.

(** The [try] of lines 45-54 as a total function. *)
Lemma resolve_link_resolved (link : string) :
  resolve_link (Some link) = Ok (resolved link).
Proof.
  unfold resolve_link, resolved, origin.
  destruct (startswith link "/"); [| reflexivity].
  destruct (urlparse_query link) as [query | e]; cbn [exc_bind exc_try];
    [| reflexivity].
  destruct (parse_qs query) as [params | e]; cbn [exc_bind exc_try];
    [| reflexivity].
  unfold has_key, qs_getitem.
  destruct (lookup "uddg" params) as [[| v vs] |]; reflexivity.
Qed.

(** One turn of the loop on a complete block with a link. *)
Lemma scan_results_record
  (b : result_div) (rest : list result_div) (num_results : Z)
  (results : list record) :
  complete b = true ->
  title_has_href b = true ->
  exists r,
    records_of [b] = [r]
    /\ scan_results (b :: rest) num_results results
       = if (Z.of_nat (length (results ++ [r])) >=? num_results)%Z
         then Ok (results ++ [r])%list
         else scan_results rest num_results (results ++ [r])%list.
Proof.
  unfold complete, lacks_title_or_snippet, title_has_href.
  intros Hcomplete Hhref. cbn [records_of scan_results].
  destruct (find_result__a b) as [title_element |]; [| discriminate].
  destruct (find_result__snippet b) as [snippet_element |]; [| discriminate].
  destruct (href title_element) as [link |]; [| discriminate].
  rewrite resolve_link_resolved. cbn [exc_bind]. eauto.
Qed.

Lemma records_of_cons (b : result_div) (rest : list result_div) :
  records_of (b :: rest) = (records_of [b] ++ records_of rest)%list.
Proof.
  cbn [records_of].
  destruct (find_result__a b) as [title_element |]; [| reflexivity].
  destruct (find_result__snippet b) as [snippet_element |]; [| reflexivity].
  destruct (href title_element); reflexivity.
Qed.

Lemma incomplete_no_record (b : result_div) :
  complete b = false -> records_of [b] = [].
Proof.
  unfold complete, lacks_title_or_snippet. cbn [records_of].
  destruct (find_result__a b); [| reflexivity].
  destruct (find_result__snippet b); [discriminate | reflexivity].
Qed.

(** While the blocks read have their links and the maximum is not reached,
    the loop carries their records, in order, to the rest of the page. *)
Lemma scan_results_prefix
  (divs rest : list result_div) (num_results : Z) (results : list record) :
  existsb href_missing divs = false ->
  (Z.of_nat (length (results ++ records_of divs)) < num_results)%Z ->
  scan_results (divs ++ rest) num_results results
  = scan_results rest num_results (results ++ records_of divs)%list.
Proof.
  revert results.
  induction divs as [| b divs IH]; intros results Hlinks Hbelow.
  - cbn. now rewrite app_nil_r.
  - cbn [existsb] in Hlinks. apply orb_false_elim in Hlinks as [Hb Hlinks].
    rewrite records_of_cons in Hbelow |- *. rewrite app_assoc in Hbelow |- *.
    cbn [app]. unfold href_missing in Hb.
    destruct (complete b) eqn:Hcomplete.
    + destruct (title_has_href b) eqn:Hhref; [| discriminate].
      destruct (scan_results_record b (divs ++ rest) num_results results
                  Hcomplete Hhref) as [r [Hr ->]].
      rewrite Hr in Hbelow |- *.
      destruct (Z.geb_spec (Z.of_nat (length (results ++ [r])))
                  num_results) as [Hge | _].
      * rewrite length_app in Hbelow. lia.
      * now apply IH.
    + rewrite (incomplete_no_record b Hcomplete) in Hbelow |- *.
      rewrite app_nil_r in Hbelow |- *.
      rewrite scan_results_skip
        by (unfold complete in Hcomplete;
            now destruct (lacks_title_or_snippet b)).
      now apply IH.
Qed.

(** On a page whose complete blocks have their links, the loop returns the
    records of the page in document order, cut at the maximum. *)
Lemma scan_results_records
  (divs : list result_div) (num_results : Z) (results : list record) :
  existsb href_missing divs = false ->
  (Z.of_nat (length results) < num_results)%Z ->
  scan_results divs num_results results
  = Ok (results
        ++ firstn (Z.to_nat num_results - length results) (records_of divs))%list.
Proof.
  revert results.
  induction divs as [| b divs IH]; intros results Hlinks Hbelow.
  - cbn. rewrite firstn_nil. now rewrite app_nil_r.
  - cbn [existsb] in Hlinks. apply orb_false_elim in Hlinks as [Hb Hlinks].
    rewrite records_of_cons. unfold href_missing in Hb.
    destruct (complete b) eqn:Hcomplete.
    + destruct (title_has_href b) eqn:Hhref; [| discriminate].
      destruct (scan_results_record b divs num_results results
                  Hcomplete Hhref) as [r [Hr ->]].
      rewrite Hr.
      assert (Hlen : length (results ++ [r]) = S (length results))
        by (rewrite length_app; cbn; lia).
      destruct (Z.to_nat num_results - length results) as [| k] eqn:Hk;
        [lia |].
      cbn [app firstn].
      destruct (Z.geb_spec (Z.of_nat (length (results ++ [r])))
                  num_results) as [Hge | Hlt].
      * assert (k = 0) as -> by lia. reflexivity.
      * rewrite IH by first [assumption | lia].
        rewrite <- app_assoc. cbn [app].
        replace (Z.to_nat num_results - length (results ++ [r])) with k
          by lia.
        reflexivity.
    + rewrite (incomplete_no_record b Hcomplete). cbn [app].
      rewrite scan_results_skip
        by (unfold complete in Hcomplete;
            now destruct (lacks_title_or_snippet b)).
      now apply IH.
Qed.

(** The loop keeps the records well formed. *)
Lemma scan_results_well_formed
  (divs : list result_div) (num_results : Z) (results out : list record) :
  Forall well_formed_record results ->
  scan_results divs num_results results = Ok out ->
  Forall well_formed_record out.
Proof.
  revert results.
  induction divs as [| b divs IH]; intros results Hresults Hscan.
  - cbn in Hscan. now injection Hscan as <-.
  - cbn [scan_results] in Hscan.
    destruct (find_result__a b) as [title_element |];
      [destruct (find_result__snippet b) as [snippet_element |] |];
      try (eapply IH; eassumption).
    destruct (resolve_link (href title_element)) as [link | e];
      cbn [exc_bind] in Hscan; [| discriminate].
    assert (Hnext : Forall well_formed_record
              (results ++ [[("title", strip (get_text title_element));
                            ("link", link);
                            ("snippet", strip (get_text snippet_element))]])).
    { apply Forall_app. split; [exact Hresults |].
      constructor; [| constructor].
      exists (strip (get_text title_element)), link,
             (strip (get_text snippet_element)).
      repeat split; apply strip_idempotent. }
    destruct (Z.of_nat _ >=? num_results)%Z.
    + now injection Hscan as <-.
    + eapply IH; eassumption.
Qed.

(** [search_duckduckgo] sends one request and never raises: it returns
    either the single sentinel record of an exception, or records that each
    hold exactly a title, a link and a snippet, the title and the snippet
    without surrounding whitespace. *)
Theorem search_returns_sentinel_or_records
  (w : world) (query : string) (num_results : Z) :
  exists out,
    run w (search_duckduckgo query num_results)
    = ([search_request query], Ok out)
    /\ ((exists e, out = [error_record e])
        \/ Forall well_formed_record out).
Proof.
  unfold search_duckduckgo.
  rewrite run_try_except, run_bind, run_send.
  destruct (w (search_request query)) as [r | e]; cbn.
  - destruct (raise_for_status r) as [e |]; cbn.
    + eexists. split; [reflexivity |]. left. now exists e.
    + destruct (scan_results (find_result_divs (text r)) num_results [])
        as [found | e] eqn:Hscan; cbn.
      * eexists. split; [reflexivity |]. right.
        eapply scan_results_well_formed; [| exact Hscan]. constructor.
      * eexists. split; [reflexivity |]. left. now exists e.
  - eexists. split; [reflexivity |]. left. now exists e.
Qed.

(** For a maximum of at least one, [search_duckduckgo] returns at most that
    many records, whatever the network answers. *)
Theorem search_returns_at_most_maximum
  (w : world) (query : string) (num_results : Z) :
  (1 <= num_results)%Z ->
  exists out,
    run w (search_duckduckgo query num_results)
    = ([search_request query], Ok out)
    /\ (Z.of_nat (length out) <= num_results)%Z.
Proof.
  intros Hpos. unfold search_duckduckgo.
  rewrite run_try_except, run_bind, run_send.
  destruct (w (search_request query)) as [r | e]; cbn.
  - destruct (raise_for_status r) as [e |]; cbn.
    + eexists. split; [reflexivity |]. cbn. lia.
    + destruct (scan_results (find_result_divs (text r)) num_results [])
        as [found | e] eqn:Hscan; cbn.
      * eexists. split; [reflexivity |].
        eapply scan_results_bounded; [| exact Hscan]. cbn. lia.
      * eexists. split; [reflexivity |]. cbn. lia.
  - eexists. split; [reflexivity |]. cbn. lia.
Qed.

(** On a page whose complete blocks all have a link, [search_duckduckgo]
    returns the records of the complete blocks in document order, cut at
    the maximum. *)
Theorem search_returns_records_in_document_order
  (w : world) (query : string) (num_results : Z) (r : response) :
  w (search_request query) = Ok r ->
  raise_for_status r = None ->
  existsb href_missing (find_result_divs (text r)) = false ->
  (1 <= num_results)%Z ->
  run w (search_duckduckgo query num_results)
  = ([search_request query],
     Ok (firstn (Z.to_nat num_results)
           (records_of (find_result_divs (text r))))).
Proof.
  intros Hw Hstatus Hlinks Hpos.
  rewrite (run_search_duckduckgo_page w query num_results r Hw Hstatus).
  rewrite scan_results_records by first [assumption | cbn; lia].
  cbn [app length caught]. now rewrite Nat.sub_0_r.
Qed.

(** A complete block without [href] that the loop reaches costs the whole
    search: the records collected before it are dropped and the single
    sentinel record of the [AttributeError] is returned. *)
Theorem missing_href_discards_results
  (w : world) (query : string) (num_results : Z) (r : response)
  (before after : list result_div) (b : result_div) :
  w (search_request query) = Ok r ->
  raise_for_status r = None ->
  find_result_divs (text r) = (before ++ b :: after)%list ->
  existsb href_missing before = false ->
  (Z.of_nat (length (records_of before)) < num_results)%Z ->
  href_missing b = true ->
  run w (search_duckduckgo query num_results)
  = ([search_request query], Ok [error_record no_href_error]).
Proof.
  intros Hw Hstatus Hpage Hlinks Hbelow Hmissing.
  rewrite (run_search_duckduckgo_page w query num_results r Hw Hstatus).
  rewrite Hpage, scan_results_prefix by assumption.
  unfold href_missing, complete, lacks_title_or_snippet, title_has_href
    in Hmissing.
  cbn [app scan_results].
  destruct (find_result__a b) as [title_element |]; [| discriminate].
  destruct (find_result__snippet b) as [snippet_element |]; [| discriminate].
  destruct (href title_element); [discriminate |].
  reflexivity.
Qed.

(** Once the blocks read so far have filled the list, nothing that follows
    on the page changes the result, not even a block that would raise. *)
Theorem blocks_after_maximum_are_ignored
  (w : world) (query : string) (num_results : Z) (r : response)
  (divs more : list result_div) (out : list record) :
  w (search_request query) = Ok r ->
  raise_for_status r = None ->
  find_result_divs (text r) = (divs ++ more)%list ->
  (1 <= num_results)%Z ->
  scan_results divs num_results [] = Ok out ->
  (Z.of_nat (length out) >= num_results)%Z ->
  run w (search_duckduckgo query num_results)
  = ([search_request query], Ok out).
Proof.
  intros Hw Hstatus Hpage Hpos Hscan Hfull.
  rewrite (run_search_duckduckgo_page w query num_results r Hw Hstatus).
  rewrite Hpage.
  rewrite (scan_results_stops_at_maximum divs more num_results [] out);
    first [reflexivity | assumption | cbn; lia].
Qed.

Lemma format_results_blocks
  (results : list record) (i : Z) (formatted : list string) :
  format_results results i formatted
  = (formatted ++ result_blocks i results)%list.
Proof.
  revert i formatted.
  induction results as [| r results IH]; intros i formatted.
  - cbn. now rewrite app_nil_r.
  - cbn [format_results result_blocks]. rewrite IH, <- app_assoc.
    reflexivity.
Qed.

(** [web_search] sends one request and always returns a text. *)
Theorem web_search_always_returns_text (w : world) (query : string) :
  exists message,
    run w (web_search query) = ([search_request query], Ok message).
Proof.
  assert (Hsearch : exists out,
    run w (search_duckduckgo query 15) = ([search_request query], Ok out)).
  { unfold search_duckduckgo.
    rewrite run_try_except, run_bind, run_send.
    destruct (w (search_request query)) as [r | e]; cbn; [| eauto].
    destruct (raise_for_status r) as [e |]; cbn; [eauto |].
    destruct (scan_results (find_result_divs (text r)) 15 []); cbn; eauto. }
  destruct Hsearch as [out Hsearch].
  unfold web_search. rewrite run_bind, Hsearch.
  destruct out as [| first rest]; cbn; [eauto |].
  destruct (lookup "error" first); cbn; eauto.
Qed.

(** On a page whose complete blocks all have a link, [web_search] prints
    the first fifteen records in document order, numbered from 1 and
    separated by a rule, or says that nothing was found when the page has no
    record. *)
Theorem web_search_prints_first_fifteen
  (w : world) (query : string) (r : response) :
  w (search_request query) = Ok r ->
  raise_for_status r = None ->
  existsb href_missing (find_result_divs (text r)) = false ->
  run w (web_search query)
  = ([search_request query],
     Ok (match records_of (find_result_divs (text r)) with
         | [] => "No search results found."
         | records =>
             join (nl ++ "---" ++ nl) (result_blocks 1 (firstn 15 records))
         end)).
Proof.
  intros Hw Hstatus Hlinks.
  unfold web_search. rewrite run_bind.
  rewrite (run_search_duckduckgo_page w query 15 r Hw Hstatus).
  rewrite scan_results_records by first [assumption | cbn; lia].
  cbn [app length caught]. rewrite Nat.sub_0_r.
  change (Z.to_nat 15) with 15%nat.
  destruct (records_of (find_result_divs (text r))) as [| first rest] eqn:Hrecs;
    [reflexivity |].
  cbn [firstn].
  assert (Hfirst : lookup "error" first = None).
  { clear - Hrecs.
    induction (find_result_divs (text r)) as [| b divs IH];
      [discriminate |].
    cbn [records_of] in Hrecs.
    destruct (find_result__a b) as [title_element |]; [| auto].
    destruct (find_result__snippet b) as [snippet_element |]; [| auto].
    destruct (href title_element); [| auto].
    now injection Hrecs as <- _. }
  rewrite Hfirst. cbn [run]. rewrite format_results_blocks. reflexivity.
Qed.

End Properties.

Lemma search_returns_at_most_maximum_witness :
  exists out,
    run page_world (search_duckduckgo (H := Sample.lib sample_page) "query" 2)
    = ([search_request "query"], Ok out)
    /\ (Z.of_nat (length out) <= 2)%Z.
Proof.
  apply (search_returns_at_most_maximum (H := Sample.lib sample_page)
           page_world "query" 2).
  lia.
Defined.

Lemma search_returns_records_in_document_order_witness :
  run page_world (search_duckduckgo (H := Sample.lib sample_page) "query" 15)
  = ([search_request "query"],
     Ok [result_record "Docs" "https://example.com/docs" "Manual";
         result_record "Blog" "https://blog.example/" "Posts";
         result_record "About" "https://duckduckgo.com/about" "Who we are"]).
Proof.
  apply (search_returns_records_in_document_order
           (H := Sample.lib sample_page) page_world "query" 15
           (mk_response 200 "<html>" (Err (ValueError "not JSON"))));
    first [reflexivity | lia].
Defined.

Lemma missing_href_discards_results_witness :
  run page_world
    (search_duckduckgo
       (H := Sample.lib (sample_page ++ unlinked_block :: sample_page))
       "query" 15)
  = ([search_request "query"],
     Ok [[("error", "'NoneType' object has no attribute 'startswith'")]]).
Proof.
  apply (missing_href_discards_results
           (H := Sample.lib (sample_page ++ unlinked_block :: sample_page))
           page_world "query" 15
           (mk_response 200 "<html>" (Err (ValueError "not JSON")))
           sample_page sample_page unlinked_block);
    first [reflexivity | cbn; lia].
Defined.

Lemma blocks_after_maximum_are_ignored_witness :
  run page_world
    (search_duckduckgo
       (H := Sample.lib (sample_page ++ [unlinked_block])) "query" 3)
  = ([search_request "query"],
     Ok [result_record "Docs" "https://example.com/docs" "Manual";
         result_record "Blog" "https://blog.example/" "Posts";
         result_record "About" "https://duckduckgo.com/about" "Who we are"]).
Proof.
  apply (blocks_after_maximum_are_ignored
           (H := Sample.lib (sample_page ++ [unlinked_block]))
           page_world "query" 3
           (mk_response 200 "<html>" (Err (ValueError "not JSON")))
           sample_page [unlinked_block]);
    first [reflexivity | cbn; lia].
Defined.

Lemma web_search_prints_first_fifteen_witness :
  run page_world (web_search (H := Sample.lib sample_page) "query")
  = ([search_request "query"],
     Ok (join (nl ++ "---" ++ nl)
           (result_blocks 1
              [result_record "Docs" "https://example.com/docs" "Manual";
               result_record "Blog" "https://blog.example/" "Posts";
               result_record "About" "https://duckduckgo.com/about"
                 "Who we are"]))).
Proof.
  apply (web_search_prints_first_fifteen (H := Sample.lib sample_page)
           page_world "query"
           (mk_response 200 "<html>" (Err (ValueError "not JSON"))));
    reflexivity.
Defined.

End WebSearchMore.
